(** * vdna: the Gaussian distribution of [vdna/vdnas/vdna_gauss.py]

    A shallow embedding of [_get_gaussian_params] and of the class [VDNAGauss]
    (fit, save, load, the three queries and [__add__]), followed by the
    properties of the specification.  [_set_extraction_settings] and
    [_get_vdna_metadata] touch none of the statistics and are left out.

    Conventions of the embedding.
    - Tensor entries are modelled in exact arithmetic: an entry is either a
      rational number ([Finite q], with [q : Qc] so that equality is Leibniz
      equality) or [NonFinite], which stands for the IEEE values [inf], [-inf]
      and [nan].  Every operation the source applies ([+], [-], [*], [** 2],
      division by a Python integer) sends a non-finite operand to a non-finite
      result, and a division by the integer zero yields a non-finite entry
      instead of raising, as torch does.
    - A feature batch is a contiguous tensor: a batch size, the shape of one
      sample, and the row-major storage.  The [mu] and [var] of a layer are
      one-dimensional tensors, modelled as lists.
    - The torch and numpy primitives the source calls ([view], [mean], [var],
      [zeros_like], [cat], indexing, broadcasting, [savez_compressed],
      [load]) are modelled by their documented behaviour, failures included.
    - A Python [dict] is an association list with unique keys kept in
      insertion order; assigning to a key that is present replaces its value
      in place, assigning to a new key appends it.
    - A raised exception is the [Raise] outcome of a computation; [print] and
      the attribute assignments of [self] are effects on an explicit
      interpreter state, and what was written before an exception stays
      written.
    - The base class [VDNA] ([vdna_base.py]) is not among the sources.  Its
      attributes [num_images] and [neurons_list] are fields of the object;
      its method [_common_before_add] is modelled from the specification. *)

From Stdlib Require Import ZArith QArith Qcanon String List Bool Lia Field.
From Stdlib Require Import Lqa.
Import ListNotations.

Local Open Scope string_scope.
Local Open Scope list_scope.

(** ** Exact scalars *)

Module Scalar.

Inductive scalar : Type :=
| Finite (q : Qc)
| NonFinite.

Definition ZtoQc (z : Z) : Qc := Q2Qc (inject_Z z).

Definition lift2 (f : Qc -> Qc -> Qc) (x y : scalar) : scalar :=
  match x, y with
  | Finite a, Finite b => Finite (f a b)
  | _, _ => NonFinite
  end.

Definition sadd : scalar -> scalar -> scalar := lift2 Qcplus.
Definition ssub : scalar -> scalar -> scalar := lift2 Qcminus.
Definition smul : scalar -> scalar -> scalar := lift2 Qcmult.

(** [x * n] and [n * x] for a Python integer [n]. *)
Definition smulz (x : scalar) (n : Z) : scalar := smul x (Finite (ZtoQc n)).

(** [x ** 2]. *)
Definition ssquare (x : scalar) : scalar := smul x x.

(** [x / n] for a Python integer [n]: true division, [x / 0] is [inf],
    [-inf] or [nan], none of which is a finite number. *)
Definition sdivz (x : scalar) (n : Z) : scalar :=
  match x with
  | Finite q => if (n =? 0)%Z then NonFinite else Finite (q / ZtoQc n)%Qc
  | NonFinite => NonFinite
  end.

Definition szero : scalar := Finite 0%Qc.

Definition ssum (xs : list scalar) : scalar := fold_right sadd szero xs.

Definition is_finite (x : scalar) : bool :=
  match x with Finite _ => true | NonFinite => false end.

End Scalar.
Import Scalar.

(** ** Exceptions and outcomes *)

(** The Python exceptions the modelled code can raise.  [RuntimeError] is
  torch's (an ambiguous [view], shapes that do not broadcast, [torch.cat] of
  an empty list), [ValueError] is numpy's refusal to unpickle an object
  array, [FileNotFoundError] is [np.load] on a missing file.
  [SchemaMismatchError] is the specification's name for the failure of
  [_common_before_add]. *)
Inductive exn : Type :=
| KeyError
| IndexError
| RuntimeError
| ValueError
| FileNotFoundError
| SchemaMismatchError.

Inductive result (A : Type) : Type :=
| OK (a : A)
| Raise (e : exn).
Arguments OK {A} a.
Arguments Raise {A} e.

Definition rbind {A B} (r : result A) (k : A -> result B) : result B :=
match r with
| OK a => k a
| Raise e => Raise e
end.

Declare Scope result_scope.
Delimit Scope result_scope with result.
Notation "'try!' x ':=' r 'in' k" := (rbind r (fun x => k))
  (at level 10, x name, r at level 100, k at level 200) : result_scope.

(** ** Python dictionaries *)

Module PyDict.
Section Dict.
Context {V : Type}.

Definition dict := list (string * V).

Fixpoint dict_get (k : string) (d : dict) : option V :=
  match d with
  | [] => None
  | (k', v) :: d' => if String.eqb k k' then Some v else dict_get k d'
  end.

(** [d[k] = v]: an existing key keeps its position. *)
Fixpoint dict_set (k : string) (v : V) (d : dict) : dict :=
  match d with
  | [] => [(k, v)]
  | (k', v') :: d' =>
      if String.eqb k k' then (k', v) :: d' else (k', v') :: dict_set k v d'
  end.

Definition keys (d : dict) : list string := map fst d.

Definition has_key (k : string) (d : dict) : bool :=
  match dict_get k d with Some _ => true | None => false end.

(** [d[k]] in an expression. *)
Definition getitem (d : dict) (k : string) : result V :=
  match dict_get k d with
  | Some v => OK v
  | None => Raise KeyError
  end.

End Dict.
Arguments dict V : clear implicits.
End PyDict.
Import PyDict.

(** ** Tensors *)

(** A one-dimensional tensor (the [mu] and [var] of a layer). *)
Definition vec := list scalar.

(** A feature batch: a contiguous tensor of shape [batch :: feat_shape] over
    its row-major storage. *)
Record Tensor : Type := {
  batch : nat;
  feat_shape : list nat;
  storage : list scalar
}.

Definition prod_shape (s : list nat) : nat := fold_right Nat.mul 1%nat s.

Definition numel (t : Tensor) : nat := (batch t * prod_shape (feat_shape t))%nat.

Definition tensor_wf (t : Tensor) : Prop := length (storage t) = numel t.

(** A two-dimensional view [nrows x ncols] of a storage. *)
Record Matrix : Type := {
  nrows : nat;
  ncols : nat;
  mdata : list scalar
}.

Definition mat_get (m : Matrix) (i j : nat) : scalar :=
  nth (i * ncols m + j) (mdata m) NonFinite.

Definition column (m : Matrix) (j : nat) : list scalar :=
  map (fun i => mat_get m i j) (seq 0 (nrows m)).

(** [features.view(features.shape[0], -1)].  torch infers the [-1] dimension
    as [numel / shape[0]]; when the known dimensions multiply to zero the
    inferred one is ambiguous and [view] raises a [RuntimeError]. *)
Definition view_batch_flat (t : Tensor) : result Matrix :=
  let n := batch t in
  let total := numel t in
  if (total =? n)%nat || ((0 <? n)%nat && (total mod n =? 0)%nat) then
    if (n =? 0)%nat then Raise RuntimeError
    else OK {| nrows := n; ncols := (total / n)%nat; mdata := storage t |}
  else Raise RuntimeError.

(** [torch.mean(m, dim=0)]. *)
Definition torch_mean_dim0 (m : Matrix) : vec :=
  map (fun j => sdivz (ssum (column m j)) (Z.of_nat (nrows m)))
      (seq 0 (ncols m)).

(** [torch.var(m, dim=0, correction=c)]: the sum of the squared deviations
    from the mean over [max(0, N - c)]. *)
Definition torch_var_dim0 (m : Matrix) (correction : Z) : vec :=
  map (fun j =>
         let c := column m j in
         let mean := sdivz (ssum c) (Z.of_nat (nrows m)) in
         sdivz (ssum (map (fun x => ssquare (ssub x mean)) c))
               (Z.max 0 (Z.of_nat (nrows m) - correction)))
      (seq 0 (ncols m)).

(** [torch.zeros_like(v)]. *)
Definition zeros_like (v : vec) : vec := repeat szero (length v).

Definition map2 (f : scalar -> scalar -> scalar) (x y : vec) : vec :=
  map (fun p => f (fst p) (snd p)) (combine x y).

(** An elementwise binary operation on two one-dimensional tensors, with
    torch's broadcasting: equal sizes combine entry by entry, a size of one
    is stretched, anything else raises a [RuntimeError]. *)
Definition broadcast2 (f : scalar -> scalar -> scalar) (x y : vec)
  : result vec :=
  if (length x =? length y)%nat then OK (map2 f x y)
  else match x, y with
       | [a], _ => OK (map (f a) y)
       | _, [b] => OK (map (fun a => f a b) x)
       | _, _ => Raise RuntimeError
       end.

Definition vadd : vec -> vec -> result vec := broadcast2 sadd.
Definition vsub : vec -> vec -> result vec := broadcast2 ssub.
Definition vmulz (v : vec) (n : Z) : vec := map (fun x => smulz x n) v.
Definition vdivz (v : vec) (n : Z) : vec := map (fun x => sdivz x n) v.
Definition vsquare (v : vec) : vec := map ssquare v.

(** [v[i]] for a Python integer [i]: a negative index counts from the end. *)
Definition tensor_index (v : vec) (i : Z) : result scalar :=
  let n := Z.of_nat (length v) in
  if ((0 <=? i) && (i <? n))%Z then OK (nth (Z.to_nat i) v NonFinite)
  else if ((- n <=? i) && (i <? 0))%Z then OK (nth (Z.to_nat (n + i)) v NonFinite)
  else Raise IndexError.

(** [torch.cat(ts)] of one-dimensional tensors; an empty list is refused. *)
Definition torch_cat (ts : list vec) : result vec :=
  match ts with
  | [] => Raise RuntimeError
  | _ :: _ => OK (concat ts)
  end.

(** ** The object and the interpreter state *)

(** The statistics of a layer: the dictionary [{"mu": ..., "var": ...}]. *)
Definition LayerStats := dict vec.

(** An entry of an [.npz] archive: an array, or a pickled Python object
    (what [np.savez_compressed] stores for a value that is not numeric). *)
Inductive NpValue : Type :=
| NpArray (a : vec)
| NpObject.

Definition Npz := dict NpValue.

(** A [VDNAGauss] instance.  [num_images] and [neurons_list] are attributes of
    the base class [VDNA]; the base class sets them, this file reads them. *)
Record VDNAGauss : Type := {
  type : string;
  name : string;
  data : dict LayerStats;
  num_images : Z;
  neurons_list : list string
}.

Definition with_data (d : dict LayerStats) (v : VDNAGauss) : VDNAGauss :=
  {| type := type v; name := name v; data := d;
     num_images := num_images v; neurons_list := neurons_list v |}.

(** [VDNAGauss()]: the two attributes [__init__] sets, an empty [data], and
    the base-class attributes before any fit. *)
Definition __init__ : VDNAGauss :=
  {| type := "gaussian"; name := "gaussian"; data := [];
     num_images := 0; neurons_list := [] |}.

Record Interp : Type := {
  self : VDNAGauss;
  stdout : list string;
  disk : dict Npz
}.

(** Computations that read and write the interpreter state and may raise;
    the state written before an exception stays written. *)
Definition M (A : Type) : Type := Interp -> result A * Interp.

Definition ret {A} (a : A) : M A := fun s => (OK a, s).

Definition bind {A B} (m : M A) (k : A -> M B) : M B :=
  fun s => match m s with
           | (OK a, s') => k a s'
           | (Raise e, s') => (Raise e, s')
           end.

Definition lift {A} (r : result A) : M A := fun s => (r, s).

Declare Scope py_scope.
Delimit Scope py_scope with py.
Notation "x <- c ;; k" := (bind c (fun x => k))
  (at level 61, c at next level, right associativity) : py_scope.
Notation "c ;; k" := (bind c (fun _ => k))
  (at level 61, right associativity) : py_scope.

Definition get_self : M VDNAGauss := fun s => (OK (self s), s).

Definition print (line : string) : M unit :=
  fun s => (OK tt, {| self := self s; stdout := stdout s ++ [line]; disk := disk s |}).

(** [self.data = d]. *)
Definition set_data (d : dict LayerStats) : M unit :=
  fun s => (OK tt, {| self := with_data d (self s); stdout := stdout s; disk := disk s |}).

(** [self.data[layer] = st]. *)
Definition setitem_data (layer : string) (st : LayerStats) : M unit :=
  fun s => set_data (dict_set layer st (data (self s))) s.

(** [self.data[layer][k] = v]. *)
Definition setitem_data2 (layer k : string) (v : vec) : M unit :=
  fun s => match getitem (data (self s)) layer with
           | OK st => setitem_data layer (dict_set k v st) s
           | Raise e => (Raise e, s)
           end.

(** [for x in xs: body(x)]. *)
Fixpoint for_each {A} (xs : list A) (body : A -> M unit) : M unit :=
  match xs with
  | [] => ret tt
  | x :: xs' => bind (body x) (fun _ => for_each xs' body)
  end.

(** A loop over a local accumulator, dropped when the body raises. *)
Fixpoint for_in {A S} (xs : list A) (body : A -> S -> result S) (acc : S)
  : result S :=
  match xs with
  | [] => OK acc
  | x :: xs' => rbind (body x acc) (for_in xs' body)
  end.

(** ** [_get_gaussian_params] and [fit_distribution] *)

Definition singleton_warning : string :=
  "Warning: only one sample, variance of VDNA with Gaussian is set to 0".

Definition _get_gaussian_params (features : Tensor) : M LayerStats :=
  (features <- lift (view_batch_flat features) ;;
   let mu := torch_mean_dim0 features in
   var <- (if (1 <? nrows features)%nat
           then ret (torch_var_dim0 features 1)
           else (print singleton_warning ;; ret (zeros_like mu))) ;;
   ret [("mu", mu); ("var", var)])%py.

Definition fit_distribution (features_dict : dict Tensor) : M unit :=
  (set_data [] ;;
   for_each (keys features_dict) (fun layer =>
     t <- lift (getitem features_dict layer) ;;
     p <- _get_gaussian_params t ;;
     setitem_data layer p))%py.

(** ** Persistence *)

(** What the code takes from its runtime: numpy's cast of an entry to a
    32-bit float, and [Path(p).with_suffix(".npz")]. *)
Record Runtime : Type := {
  astype_float32 : scalar -> scalar;
  with_suffix_npz : string -> string
}.

(** [np.savez_compressed(file_path, **data)]: each numeric array is stored
    under its key; a value that is not numeric (here the empty dictionary) is
    stored pickled. *)
Definition savez_compressed (file_path : string) (data : Npz) : M unit :=
  fun s => (OK tt, {| self := self s; stdout := stdout s;
                      disk := dict_set file_path data (disk s) |}).

(** [np.load(file_path)]. *)
Definition np_load (file_path : string) : M Npz :=
  fun s => match dict_get file_path (disk s) with
           | Some z => (OK z, s)
           | None => (Raise FileNotFoundError, s)
           end.

(** [loaded_data[key]]: a missing key raises [KeyError]; a pickled entry is
    refused with [ValueError], pickles being disallowed by default. *)
Definition npz_getitem (z : Npz) (key : string) : result vec :=
  match dict_get key z with
  | Some (NpArray a) => OK a
  | Some NpObject => Raise ValueError
  | None => Raise KeyError
  end.

Section Persistence.
Variable rt : Runtime.

Definition to_float32 (v : vec) : NpValue := NpArray (map (astype_float32 rt) v).

(** The body of the loop of [_save_dist_data] for one layer, on the local
    dictionary [data].  Its first statement is [data[layer] = {}]: the empty
    dictionary is not an array, and the archive holds it as an object. *)
Definition save_layer (self_data : dict LayerStats) (layer : string)
  (data : Npz) : result Npz :=
  (let data := dict_set layer NpObject data in
   try! st := getitem self_data layer in
   try! mu := getitem st "mu" in
   let data := dict_set ("mu-" ++ layer)%string (to_float32 mu) data in
   try! st' := getitem self_data layer in
   try! var := getitem st' "var" in
   let data := dict_set ("var-" ++ layer)%string (to_float32 var) data in
   OK data)%result.

(** The dictionary [data] built by the loop of [_save_dist_data]. *)
Definition save_entries (self_data : dict LayerStats) : result Npz :=
  for_in (keys self_data) (save_layer self_data) [].

Definition _save_dist_data (file_path : string) : M unit :=
  (let file_path := with_suffix_npz rt file_path in
   s <- get_self ;;
   data <- lift (save_entries (data s)) ;;
   savez_compressed file_path data)%py.

(** [dist_metadata] is not read; [device] only says where the tensors are
    placed, not what they hold. *)
Definition _load_dist_data (dist_metadata : dict string) (file_path : string)
  (device : string) : M unit :=
  (let file_path := with_suffix_npz rt file_path in
   loaded_data <- np_load file_path ;;
   set_data [] ;;
   s <- get_self ;;
   for_each (neurons_list s) (fun layer =>
     setitem_data layer [] ;;
     mu <- lift (npz_getitem loaded_data ("mu-" ++ layer)%string) ;;
     setitem_data2 layer "mu" mu ;;
     var <- lift (npz_getitem loaded_data ("var-" ++ layer)%string) ;;
     setitem_data2 layer "var" var))%py.

End Persistence.

(** ** Queries *)

Definition get_neuron_dist (self : VDNAGauss) (layer_name : string)
  (neuron_idx : Z) : result (dict scalar) :=
  (try! st := getitem (data self) layer_name in
   try! mu := getitem st "mu" in
   try! m := tensor_index mu neuron_idx in
   try! st' := getitem (data self) layer_name in
   try! var := getitem st' "var" in
   try! v := tensor_index var neuron_idx in
   OK [("mu", m); ("var", v)])%result.

Definition get_all_neurons_in_layer_dist (self : VDNAGauss)
  (layer_name : string) : result (dict vec) :=
  (try! st := getitem (data self) layer_name in
   try! mu := getitem st "mu" in
   try! st' := getitem (data self) layer_name in
   try! var := getitem st' "var" in
   OK [("mu", mu); ("var", var)])%result.

Definition get_all_neurons_dists (self : VDNAGauss) : result (dict vec) :=
  (try! lists :=
     for_in (keys (data self))
       (fun layer_name (acc : list vec * list vec) =>
          let (mus, variances) := acc in
          try! st := getitem (data self) layer_name in
          try! mu := getitem st "mu" in
          let mus := mus ++ [mu] in
          try! st' := getitem (data self) layer_name in
          try! var := getitem st' "var" in
          let variances := variances ++ [var] in
          OK (mus, variances))
       ([], []) in
   let (mus, variances) := lists in
   try! mu := torch_cat mus in
   try! var := torch_cat variances in
   OK [("mu", mu); ("var", var)])%result.

(** ** Merging *)

Definition neuron_count (st : LayerStats) : option nat :=
  option_map (@length scalar) (dict_get "mu" st).

Definition option_nat_eqb (a b : option nat) : bool :=
  match a, b with
  | Some x, Some y => (x =? y)%nat
  | None, None => true
  | _, _ => false
  end.

(** The precondition of a merge: the same set of layer names and, for each
    layer, the same neuron count. *)
Definition same_schema (a b : VDNAGauss) : bool :=
  forallb (fun l => has_key l (data b)) (keys (data a))
  && forallb (fun l => has_key l (data a)) (keys (data b))
  && forallb (fun l =>
                match dict_get l (data a), dict_get l (data b) with
                | Some sa, Some sb =>
                    option_nat_eqb (neuron_count sa) (neuron_count sb)
                | _, _ => false
                end)
             (keys (data a)).

(** Modelled from the spec: [VDNA._common_before_add], a method of the base
    class in [vdna_base.py], which is not among the sources.  The
    specification of the merge fixes what it must do: fail with
    [SchemaMismatchError] unless the operands have the identical set of layer
    names and per-layer neuron counts, and give the result the sample count
    [n_a + n_b].  The specification notes that the source has no guard on the
    denominator [n_a + n_b - 1], so none is modelled. *)
Definition _common_before_add (self other new_vdna : VDNAGauss)
  : result VDNAGauss :=
  if same_schema self other then
    OK {| type := type new_vdna; name := name new_vdna;
          data := data new_vdna;
          num_images := num_images self + num_images other;
          neurons_list := neurons_list self |}
  else Raise SchemaMismatchError.

(** [d[layer][k]]. *)
Definition getitem2 (d : dict LayerStats) (layer k : string) : result vec :=
  (try! st := getitem d layer in getitem st k)%result.

(** The body of the loop of [__add__] for one layer, on [new_vdna.data]. *)
Definition add_layer (self other : VDNAGauss) (layer : string)
  (new_data : dict LayerStats) : result (dict LayerStats) :=
  (let n_a := num_images self in
   let n_b := num_images other in
   let new_data := dict_set layer [] new_data in
   try! mu_a := getitem2 (data self) layer "mu" in
   try! mu_b := getitem2 (data other) layer "mu" in
   try! num := vadd (vmulz mu_a n_a) (vmulz mu_b n_b) in
   let mu := vdivz num (n_a + n_b) in
   try! st := getitem new_data layer in
   let new_data := dict_set layer (dict_set "mu" mu st) new_data in
   try! var_a := getitem2 (data self) layer "var" in
   let t1 := vmulz var_a (n_a - 1) in
   try! mu_a' := getitem2 (data self) layer "mu" in
   try! mu_new := getitem2 new_data layer "mu" in
   try! d_a := vsub mu_a' mu_new in
   let t2 := vmulz (vsquare d_a) n_a in
   try! s12 := vadd t1 t2 in
   try! var_b := getitem2 (data other) layer "var" in
   let t3 := vmulz var_b (n_b - 1) in
   try! s123 := vadd s12 t3 in
   try! mu_b' := getitem2 (data other) layer "mu" in
   try! mu_new' := getitem2 new_data layer "mu" in
   try! d_b := vsub mu_b' mu_new' in
   let t4 := vmulz (vsquare d_b) n_b in
   try! s1234 := vadd s123 t4 in
   let var := vdivz s1234 (n_a + n_b - 1) in
   try! st' := getitem new_data layer in
   OK (dict_set layer (dict_set "var" var st') new_data))%result.

Definition __add__ (self other : VDNAGauss) : result VDNAGauss :=
  (let new_vdna := __init__ in
   try! new_vdna := _common_before_add self other new_vdna in
   try! new_data :=
     for_in (keys (data self)) (add_layer self other) (data new_vdna) in
   OK (with_data new_data new_vdna))%result.

(** ** Vocabulary of the properties *)

(** The view of a feature batch with at least one sample: one row per
    sample, one column per neuron. *)
Definition flat (t : Tensor) : Matrix :=
  {| nrows := batch t; ncols := prod_shape (feat_shape t); mdata := storage t |}.

(** Sample [i] of a batch, flattened: the [i]-th block of consecutive
    entries of the storage, one entry per neuron. *)
Definition sample (t : Tensor) (i : nat) : list scalar :=
  firstn (prod_shape (feat_shape t))
         (skipn (i * prod_shape (feat_shape t)) (storage t)).

(** The values neuron [j] takes over the samples of a batch. *)
Definition neuron_samples (t : Tensor) (j : nat) : list scalar :=
  map (fun i => nth j (sample t i) NonFinite) (seq 0 (batch t)).

(** Arithmetic mean and unbiased sample variance of a list of values. *)
Definition mean (xs : list scalar) : scalar :=
  sdivz (ssum xs) (Z.of_nat (length xs)).

Definition sum_sq_dev (xs : list scalar) : scalar :=
  ssum (map (fun x => ssquare (ssub x (mean xs))) xs).

Definition unbiased_var (xs : list scalar) : scalar :=
  sdivz (sum_sq_dev xs) (Z.of_nat (length xs) - 1).

(** What [_get_gaussian_params] returns for a batch with a sample. *)
Definition gaussian_stats (t : Tensor) : LayerStats :=
  let mu := torch_mean_dim0 (flat t) in
  [("mu", mu);
   ("var", if (1 <? batch t)%nat then torch_var_dim0 (flat t) 1
           else zeros_like mu)].

Definition dict_mapi {X V} (g : string -> X -> V) (d : dict X) : dict V :=
  map (fun p => (fst p, g (fst p) (snd p))) d.

(** The layers that come before the first layer without a sample. *)
Fixpoint before_first_empty (fd : dict Tensor) : dict Tensor :=
  match fd with
  | [] => []
  | (l, t) :: fd' =>
      if (batch t =? 0)%nat then [] else (l, t) :: before_first_empty fd'
  end.

Definition has_empty_batch (fd : dict Tensor) : bool :=
  existsb (fun p => (batch (snd p) =? 0)%nat) fd.

(** The number of layers whose batch has one sample. *)
Definition singleton_layers (fd : dict Tensor) : nat :=
  length (filter (fun p => (batch (snd p) =? 1)%nat) fd).

Definition fresh : Interp := {| self := __init__; stdout := []; disk := [] |}.

(** The instance left by [fit_distribution(fd)] on a new object.  The sample
    count [n] of the fit and the list of its layers are recorded by the base
    class, which is not among the sources; they are given here. *)
Definition fitted (fd : dict Tensor) (n : Z) : VDNAGauss :=
  {| type := "gaussian"; name := "gaussian";
     data := data (self (snd (fit_distribution fd fresh)));
     num_images := n;
     neurons_list := keys fd |}.

(** A well-formed distribution: distinct layer names, and per layer a [mu]
    and a [var] of the same length. *)
Definition stats_wf (st : LayerStats) : Prop :=
  exists mu var, st = [("mu", mu); ("var", var)] /\ length mu = length var.

Definition dist_wf (d : VDNAGauss) : Prop :=
  NoDup (keys (data d)) /\ Forall (fun p => stats_wf (snd p)) (data d).

(** The same set of layer names and, for each layer, the same neuron
    count. *)
Definition SameSchema (a b : VDNAGauss) : Prop :=
  (forall l, In l (keys (data a)) <-> In l (keys (data b))) /\
  (forall l sa sb, dict_get l (data a) = Some sa ->
                   dict_get l (data b) = Some sb ->
                   neuron_count sa = neuron_count sb).

(** [torch.cat([ta, tb], dim=0)]: the samples of [tb] after those of [ta]. *)
Definition cat_batch (ta tb : Tensor) : Tensor :=
  {| batch := batch ta + batch tb;
     feat_shape := feat_shape ta;
     storage := storage ta ++ storage tb |}.

(** The features of the union of two sample sets, layer by layer. *)
Definition concat_features (fa fb : dict Tensor) : dict Tensor :=
  dict_mapi (fun l ta => match dict_get l fb with
                         | Some tb => cat_batch ta tb
                         | None => ta
                         end) fa.

Definition all_finite (t : Tensor) : Prop :=
  Forall (fun x => is_finite x = true) (storage t).

(** The merge formulas of the specification, entry by entry. *)
Definition mu_combined (mu_a mu_b : scalar) (n_a n_b : Z) : scalar :=
  sdivz (sadd (smulz mu_a n_a) (smulz mu_b n_b)) (n_a + n_b).

Definition var_combined (mu_a var_a mu_b var_b : scalar) (n_a n_b : Z)
  : scalar :=
  let mu := mu_combined mu_a mu_b n_a n_b in
  sdivz (sadd (sadd (sadd (smulz var_a (n_a - 1))
                          (smulz (ssquare (ssub mu_a mu)) n_a))
                    (smulz var_b (n_b - 1)))
              (smulz (ssquare (ssub mu_b mu)) n_b))
        (n_a + n_b - 1).


(** [d[layer][k]] where it exists, the empty vector elsewhere. *)
Definition layer_field (d : dict LayerStats) (layer k : string) : vec :=
  match getitem2 d layer k with
  | OK v => v
  | Raise _ => []
  end.

(** The vectors [__add__] computes for a layer, on operands of one size. *)
Definition merged_mu (mu_a mu_b : vec) (n_a n_b : Z) : vec :=
  vdivz (map2 sadd (vmulz mu_a n_a) (vmulz mu_b n_b)) (n_a + n_b).

Definition merged_var (mu_a var_a mu_b var_b : vec) (n_a n_b : Z) : vec :=
  let mu := merged_mu mu_a mu_b n_a n_b in
  vdivz (map2 sadd
           (map2 sadd
              (map2 sadd (vmulz var_a (n_a - 1))
                         (vmulz (vsquare (map2 ssub mu_a mu)) n_a))
              (vmulz var_b (n_b - 1)))
           (vmulz (vsquare (map2 ssub mu_b mu)) n_b))
        (n_a + n_b - 1).

Definition merged_stats (a b : VDNAGauss) (layer : string) : LayerStats :=
  let f v k := layer_field (data v) layer k in
  [("mu", merged_mu (f a "mu") (f b "mu") (num_images a) (num_images b));
   ("var", merged_var (f a "mu") (f a "var") (f b "mu") (f b "var")
                      (num_images a) (num_images b))].

(** What [__add__] returns on well-formed operands of one schema. *)
Definition merged (a b : VDNAGauss) : VDNAGauss :=
  {| type := "gaussian"; name := "gaussian";
     data := dict_mapi (fun l _ => merged_stats a b l) (data a);
     num_images := num_images a + num_images b;
     neurons_list := neurons_list a |}.

(** The state with [self.data] replaced. *)
Definition put_data (d : dict LayerStats) (s : Interp) : Interp :=
  {| self := with_data d (self s); stdout := stdout s; disk := disk s |}.

(** The array an archive holds under a key, the empty vector elsewhere. *)
Definition npz_array (z : Npz) (key : string) : vec :=
  match npz_getitem z key with
  | OK a => a
  | Raise _ => []
  end.

(** The statistics [_load_dist_data] rebuilds for a layer. *)
Definition loaded_stats (z : Npz) (layer : string) : LayerStats :=
  [("mu", npz_array z ("mu-" ++ layer)%string);
   ("var", npz_array z ("var-" ++ layer)%string)].

Definition has_arrays (z : Npz) (layer : string) : Prop :=
  (exists m, npz_getitem z ("mu-" ++ layer)%string = OK m) /\
  (exists v, npz_getitem z ("var-" ++ layer)%string = OK v).

Definition has_mu_var (st : LayerStats) : Prop :=
  exists mu var, st = [("mu", mu); ("var", var)].


(** ** Sums of rationals *)

(** The rational a finite entry holds. *)
Definition finite_part (x : scalar) : Qc :=
  match x with
  | Finite q => q
  | NonFinite => 0%Qc
  end.

Definition qsum (qs : list Qc) : Qc := fold_right Qcplus 0%Qc qs.

Definition qlen (qs : list Qc) : Qc := ZtoQc (Z.of_nat (length qs)).

(** The sum of the squared deviations from a centre [c]. *)
Definition qdev (c : Qc) (qs : list Qc) : Qc :=
  qsum (map (fun q => (q - c) * (q - c))%Qc qs).

(** ** Example inputs *)

Definition zs (l : list Z) : list scalar := map (fun z => Finite (ZtoQc z)) l.

Definition ex_pair : Tensor :=
  {| batch := 2; feat_shape := [2%nat]; storage := zs [1; 2; 3; 6]%Z |}.

Definition ex_pair' : Tensor :=
  {| batch := 2; feat_shape := [2%nat]; storage := zs [5; 4; 9; 0]%Z |}.

Definition ex_single : Tensor :=
  {| batch := 1; feat_shape := [2%nat]; storage := zs [5; 7]%Z |}.

Definition ex_empty : Tensor :=
  {| batch := 0; feat_shape := [2%nat]; storage := [] |}.

(** Two layers of one sample each, the second named like the archive key
    of the first. *)
Definition ex_clash : dict Tensor := [("x", ex_single); ("mu-x", ex_single)].

(** A distribution with one layer ["L"] of one neuron. *)
Definition one_neuron (mu var : Z) (n : Z) : VDNAGauss :=
  {| type := "gaussian"; name := "gaussian";
     data := [("L", [("mu", zs [mu]); ("var", zs [var])])];
     num_images := n;
     neurons_list := ["L"] |}.

(** A distribution with the layers ["L"] and ["M"]. *)
Definition two_layers : VDNAGauss :=
  {| type := "gaussian"; name := "gaussian";
     data := [("L", [("mu", zs [1%Z]); ("var", zs [0%Z])]);
              ("M", [("mu", zs [1%Z]); ("var", zs [0%Z])])];
     num_images := 1;
     neurons_list := ["L"; "M"] |}.

(** A runtime for the examples: the cast is the identity, the entries of
    the examples being small integers, which 32-bit floats hold exactly. *)
Definition ex_runtime : Runtime :=
  {| astype_float32 := fun x => x;
     with_suffix_npz := fun p => (p ++ ".npz")%string |}.

(** ** The invariant of the statistics and the layout of the queries *)





(** The vector a layer holds under a key, the empty vector if it has none. *)
Definition stats_field (st : LayerStats) (k : string) : vec :=
  match dict_get k st with
  | Some v => v
  | None => []
  end.



(** The number of neurons of the layers that come before [layer]. *)
Fixpoint neurons_before (d : dict LayerStats) (layer : string) : nat :=
  match d with
  | [] => 0
  | (l, st) :: d' =>
      if String.eqb layer l then 0%nat
      else (length (stats_field st "mu") + neurons_before d' layer)%nat
  end.

Definition total_neurons (d : dict LayerStats) : nat :=
  fold_right (fun p n => (length (stats_field (snd p) "mu") + n)%nat) 0%nat d.

(* ================================================================= *)
(** * Properties *)

(** ** Integers as rationals *)

Section ZtoQcFacts.
Local Open Scope Qc_scope.

Lemma this_ZtoQc (a : Z) : (this (ZtoQc a) == inject_Z a)%Q.
Proof. unfold ZtoQc, Q2Qc. cbn [this]. apply Qred_correct. Qed.

Lemma ZtoQc_add (a b : Z) : ZtoQc (a + b) = ZtoQc a + ZtoQc b.
Proof.
  apply Qc_is_canon. unfold Qcplus.
  change (this (Q2Qc ?q)) with (Qred q).
  rewrite !Qred_correct, !this_ZtoQc. rewrite inject_Z_plus; reflexivity.
Qed.

Lemma ZtoQc_opp (a : Z) : ZtoQc (- a) = - ZtoQc a.
Proof.
  apply Qc_is_canon. unfold Qcopp.
  change (this (Q2Qc ?q)) with (Qred q).
  rewrite !Qred_correct, !this_ZtoQc. rewrite inject_Z_opp; reflexivity.
Qed.

Lemma ZtoQc_sub (a b : Z) : ZtoQc (a - b) = ZtoQc a - ZtoQc b.
Proof.
  unfold Z.sub, Qcminus. now rewrite ZtoQc_add, ZtoQc_opp.
Qed.

Lemma ZtoQc_0 : ZtoQc 0 = 0.
Proof. apply Qc_is_canon. reflexivity. Qed.

Lemma ZtoQc_1 : ZtoQc 1 = 1.
Proof. apply Qc_is_canon. reflexivity. Qed.

Lemma ZtoQc_inj (a b : Z) : ZtoQc a = ZtoQc b -> a = b.
Proof.
  intros H. apply inject_Z_injective. rewrite <- !this_ZtoQc. now rewrite H.
Qed.

Lemma ZtoQc_nonzero (a : Z) : a <> 0%Z -> ZtoQc a <> 0.
Proof.
  intros H E. apply H, ZtoQc_inj. now rewrite ZtoQc_0.
Qed.

Lemma ZtoQc_succ_nat (n : nat) :
  ZtoQc (Z.of_nat (S n)) = ZtoQc (Z.of_nat n) + 1.
Proof. now rewrite Nat2Z.inj_succ, <- Z.add_1_r, ZtoQc_add, ZtoQc_1. Qed.

End ZtoQcFacts.

(** ** Sums of finite values *)

Section FiniteSums.
Local Open Scope Qc_scope.

Lemma qsum_cons (q : Qc) (qs : list Qc) : qsum (q :: qs) = q + qsum qs.
Proof. reflexivity. Qed.

Lemma qlen_nil : qlen [] = 0.
Proof. unfold qlen. cbn [length Z.of_nat]. apply ZtoQc_0. Qed.

Lemma qlen_cons (q : Qc) (qs : list Qc) : qlen (q :: qs) = qlen qs + 1.
Proof. unfold qlen. cbn [length]. apply ZtoQc_succ_nat. Qed.

Lemma qdev_cons (c q : Qc) (qs : list Qc) :
  qdev c (q :: qs) = (q - c) * (q - c) + qdev c qs.
Proof. reflexivity. Qed.

Lemma ssum_finite (qs : list Qc) : ssum (map Finite qs) = Finite (qsum qs).
Proof.
  induction qs as [|q qs IH]; [reflexivity|].
  cbn [map]. change (ssum (Finite q :: map Finite qs))
    with (sadd (Finite q) (ssum (map Finite qs))).
  now rewrite IH.
Qed.

Lemma qsum_app (xs ys : list Qc) : qsum (xs ++ ys) = qsum xs + qsum ys.
Proof.
  induction xs as [|x xs IH].
  - change (qsum []) with 0. cbn [app]. ring.
  - cbn [app]. rewrite !qsum_cons, IH. ring.
Qed.

Lemma qlen_app (xs ys : list Qc) : qlen (xs ++ ys) = qlen xs + qlen ys.
Proof.
  unfold qlen. now rewrite length_app, Nat2Z.inj_add, ZtoQc_add.
Qed.

Lemma qdev_app (c : Qc) (xs ys : list Qc) :
  qdev c (xs ++ ys) = qdev c xs + qdev c ys.
Proof. unfold qdev. now rewrite map_app, qsum_app. Qed.

Lemma qdev_expand (c : Qc) (qs : list Qc) :
  qdev c qs = qdev 0 qs - (1 + 1) * c * qsum qs + qlen qs * c * c.
Proof.
  induction qs as [|q qs IH].
  - rewrite qlen_nil. change (qdev c []) with 0. change (qdev 0 []) with 0.
    change (qsum []) with 0. ring.
  - rewrite !qdev_cons, qsum_cons, qlen_cons, IH. ring.
Qed.

(** Moving the centre from the mean [m] of the values to [c]. *)
Lemma qdev_shift (c m : Qc) (qs : list Qc) :
  qsum qs = qlen qs * m ->
  qdev c qs = qdev m qs + qlen qs * (m - c) * (m - c).
Proof.
  intros Hm. rewrite (qdev_expand c), (qdev_expand m), Hm. ring.
Qed.

End FiniteSums.

(** ** Dictionaries *)

Section DictFacts.
Context {V : Type}.
Implicit Types (d : dict V) (k : string) (v : V).

Lemma dict_get_set_eq k v d : dict_get k (dict_set k v d) = Some v.
Proof.
  induction d as [|[k' v'] d IH]; cbn.
  - now rewrite String.eqb_refl.
  - destruct (String.eqb k k') eqn:E; cbn; now rewrite E.
Qed.


Lemma dict_get_none k d : ~ In k (keys d) -> dict_get k d = None.
Proof.
  induction d as [|[k' v'] d IH]; cbn; [reflexivity|]. intros H.
  destruct (String.eqb k k') eqn:E.
  - apply String.eqb_eq in E. subst. exfalso. apply H. now left.
  - apply IH. intros Hin. apply H. now right.
Qed.

Lemma dict_get_some_in k v d : dict_get k d = Some v -> In (k, v) d.
Proof.
  induction d as [|[k' v'] d IH]; cbn; [discriminate|].
  destruct (String.eqb k k') eqn:E.
  - apply String.eqb_eq in E. subst. intros [= ->]. now left.
  - intros H. right. now apply IH.
Qed.

Lemma dict_get_in k v d : NoDup (keys d) -> In (k, v) d -> dict_get k d = Some v.
Proof.
  induction d as [|[k' v'] d IH]; cbn; [intros _ []|].
  intros Hnd [H|H]; inversion Hnd as [|? ? Hnotin Hnd']; subst.
  - injection H as -> ->. now rewrite String.eqb_refl.
  - destruct (String.eqb k k') eqn:E.
    + apply String.eqb_eq in E. subst. exfalso. apply Hnotin.
      change k' with (fst (k', v)). now apply in_map.
    + now apply IH.
Qed.

Lemma dict_get_in_keys k d : In k (keys d) -> exists v, dict_get k d = Some v.
Proof.
  induction d as [|[k' v'] d IH]; cbn; [intros []|]. intros H.
  destruct (String.eqb k k') eqn:E; [now eexists|].
  destruct H as [H|H]; [|now apply IH].
  subst. now rewrite String.eqb_refl in E.
Qed.

Lemma dict_get_keys k v d : dict_get k d = Some v -> In k (keys d).
Proof.
  intros H. apply dict_get_some_in in H.
  change k with (fst (k, v)). now apply in_map.
Qed.

Lemma has_key_in k d : has_key k d = true <-> In k (keys d).
Proof.
  unfold has_key. split.
  - destruct (dict_get k d) eqn:E; [|discriminate].
    intros _. eapply dict_get_keys; eauto.
  - intros H. apply dict_get_in_keys in H as [v ->]. reflexivity.
Qed.

(** Assigning to a key that is not there appends it. *)
Lemma dict_set_fresh k v d : ~ In k (keys d) -> dict_set k v d = d ++ [(k, v)].
Proof.
  induction d as [|[k' v'] d IH]; cbn; [reflexivity|]. intros H.
  destruct (String.eqb k k') eqn:E.
  - apply String.eqb_eq in E. subst. exfalso. apply H. now left.
  - rewrite IH; [reflexivity|]. intros Hin. apply H. now right.
Qed.

(** Assigning twice to a key keeps the last value. *)
Lemma dict_set_set k v v' d : dict_set k v (dict_set k v' d) = dict_set k v d.
Proof.
  induction d as [|[k0 v0] d IH]; cbn.
  - now rewrite String.eqb_refl.
  - destruct (String.eqb k k0) eqn:E; cbn; rewrite E; [reflexivity|].
    now rewrite IH.
Qed.

Lemma keys_dict_set_present k v d :
  In k (keys d) -> keys (dict_set k v d) = keys d.
Proof.
  induction d as [|[k0 v0] d IH]; cbn; [intros []|]. intros H.
  destruct (String.eqb k k0) eqn:E; cbn; [reflexivity|].
  f_equal. apply IH. destruct H as [H|H]; [|exact H].
  subst. now rewrite String.eqb_refl in E.
Qed.

Lemma keys_app d d' : keys (d ++ d') = keys d ++ keys d'.
Proof. apply map_app. Qed.

Lemma getitem_ok d k v : dict_get k d = Some v -> getitem d k = OK v.
Proof. unfold getitem. now intros ->. Qed.

End DictFacts.

Lemma keys_dict_mapi {X V} (g : string -> X -> V) (d : dict X) :
  keys (dict_mapi g d) = keys d.
Proof.
  unfold keys, dict_mapi. rewrite map_map. now apply map_ext.
Qed.

Lemma dict_get_mapi {X V} (g : string -> X -> V) (d : dict X) (k : string) :
  dict_get k (dict_mapi g d) = option_map (g k) (dict_get k d).
Proof.
  induction d as [|[k' x] d IH]; cbn; [reflexivity|].
  destruct (String.eqb k k') eqn:E; [|exact IH].
  apply String.eqb_eq in E. now subst.
Qed.

(** ** Loops that fill a dictionary *)

(** A loop whose body assigns one value per key to the accumulator, over
    keys that are new to it, appends the values in order. *)
Lemma for_in_fill {X V} (items : dict X)
  (body : string -> dict V -> result (dict V)) (g : string -> X -> V) :
  NoDup (keys items) ->
  (forall k x acc, In (k, x) items -> body k acc = OK (dict_set k (g k x) acc)) ->
  forall acc, (forall k, In k (keys items) -> ~ In k (keys acc)) ->
  for_in (keys items) body acc = OK (acc ++ dict_mapi g items).
Proof.
  induction items as [|[k x] items IH]; intros Hnd Hbody acc Hfresh.
  - cbn. now rewrite app_nil_r.
  - cbn [keys map fst for_in]. inversion Hnd as [|? ? Hk Hnd']; subst.
    rewrite (Hbody k x acc) by now left. cbn [rbind].
    rewrite dict_set_fresh by (apply Hfresh; now left).
    fold (keys items). rewrite IH; auto.
    + now rewrite <- app_assoc.
    + intros ? ? ? Hin. apply Hbody. now right.
    + intros k' Hin. rewrite keys_app, in_app_iff. cbn.
      intros [H|[H|[]]].
      * revert H. apply Hfresh. now right.
      * subst. contradiction.
Qed.

(** ** Fitting *)

Lemma view_batch_flat_ok (t : Tensor) :
  batch t <> 0%nat -> view_batch_flat t = OK (flat t).
Proof.
  intros Hn. unfold view_batch_flat, numel, flat.
  assert (E : ((batch t * prod_shape (feat_shape t)) mod batch t =? 0)%nat = true).
  { apply Nat.eqb_eq. rewrite Nat.mul_comm. now apply Nat.Div0.mod_mul. }
  assert (P : (0 <? batch t)%nat = true) by (apply Nat.ltb_lt; lia).
  rewrite E, P, orb_true_r.
  destruct (batch t =? 0)%nat eqn:Z0; [apply Nat.eqb_eq in Z0; contradiction|].
  do 2 f_equal. rewrite Nat.mul_comm. now apply Nat.div_mul.
Qed.

Lemma view_batch_flat_empty (t : Tensor) :
  batch t = 0%nat -> view_batch_flat t = Raise RuntimeError.
Proof.
  intros Hn. unfold view_batch_flat, numel. rewrite Hn. reflexivity.
Qed.

Lemma get_gaussian_params_ok (t : Tensor) (s : Interp) :
  batch t <> 0%nat ->
  _get_gaussian_params t s =
  (OK (gaussian_stats t),
   {| self := self s;
      stdout := stdout s ++ (if (1 <? batch t)%nat then [] else [singleton_warning]);
      disk := disk s |}).
Proof.
  intros Hn. unfold _get_gaussian_params, bind, lift.
  rewrite (view_batch_flat_ok t Hn). unfold gaussian_stats.
  change (nrows (flat t)) with (batch t).
  destruct (1 <? batch t)%nat; cbn.
  - rewrite app_nil_r. now destruct s.
  - reflexivity.
Qed.

Lemma get_gaussian_params_empty (t : Tensor) (s : Interp) :
  batch t = 0%nat -> _get_gaussian_params t s = (Raise RuntimeError, s).
Proof.
  intros Hn. unfold _get_gaussian_params, bind, lift.
  now rewrite (view_batch_flat_empty t Hn).
Qed.

Lemma singleton_layers_cons (l : string) (t : Tensor) (fd : dict Tensor) :
  singleton_layers ((l, t) :: fd) =
  ((if (batch t =? 1)%nat then 1 else 0) + singleton_layers fd)%nat.
Proof.
  unfold singleton_layers. cbn [filter snd].
  now destruct (batch t =? 1)%nat.
Qed.

(** The loop of [fit_distribution] over the items that remain: it stops at
    the first batch without a sample and keeps what it stored before. *)
Lemma fit_loop (fd items : dict Tensor) :
  NoDup (keys items) ->
  (forall l t, In (l, t) items -> dict_get l fd = Some t) ->
  forall s, (forall l, In l (keys items) -> ~ In l (keys (data (self s)))) ->
  for_each (keys items)
    (fun layer => bind (lift (getitem fd layer)) (fun t =>
                  bind (_get_gaussian_params t) (fun p =>
                  setitem_data layer p))) s
  = (if has_empty_batch items then Raise RuntimeError else OK tt,
     {| self := with_data (data (self s) ++
                           dict_mapi (fun _ => gaussian_stats)
                                     (before_first_empty items)) (self s);
        stdout := stdout s ++
                  repeat singleton_warning
                         (singleton_layers (before_first_empty items));
        disk := disk s |}).
Proof.
  induction items as [|[l t] items IH]; intros Hnd Hget s Hfresh.
  - cbn. rewrite !app_nil_r. now destruct s as [[]].
  - cbn [keys map fst for_each]. fold (keys items).
    inversion Hnd as [|? ? Hl Hnd']; subst.
    unfold bind at 1. unfold bind at 1. unfold lift at 1.
    rewrite (getitem_ok fd l t) by (apply Hget; now left).
    cbn [has_empty_batch existsb snd before_first_empty].
    fold (has_empty_batch items).
    unfold bind at 1.
    destruct (batch t =? 0)%nat eqn:E0.
    + apply Nat.eqb_eq in E0. rewrite get_gaussian_params_empty by exact E0.
      cbn. rewrite !app_nil_r. now destruct s as [[]].
    + apply Nat.eqb_neq in E0. rewrite get_gaussian_params_ok by exact E0.
      unfold setitem_data at 1, set_data at 1. cbn [self stdout disk orb].
      rewrite dict_set_fresh by (apply Hfresh; now left).
      rewrite IH; auto.
      * f_equal. cbn [self stdout disk data with_data dict_mapi map fst snd].
        rewrite singleton_layers_cons.
        rewrite <- !app_assoc. cbn [app].
        f_equal. f_equal.
        destruct (1 <? batch t)%nat eqn:E1.
        -- apply Nat.ltb_lt in E1.
           destruct (batch t =? 1)%nat eqn:E2;
             [apply Nat.eqb_eq in E2; lia|]. reflexivity.
        -- apply Nat.ltb_ge in E1.
           destruct (batch t =? 1)%nat eqn:E2;
             [|apply Nat.eqb_neq in E2; lia]. reflexivity.
      * intros ? ? Hin. apply Hget. now right.
      * cbn [self data with_data]. intros l' Hin.
        rewrite keys_app, in_app_iff. cbn. intros [H|[H|[]]].
        -- revert H. apply Hfresh. now right.
        -- subst. contradiction.
Qed.

Lemma fit_distribution_run (fd : dict Tensor) (s : Interp) :
  NoDup (keys fd) ->
  fit_distribution fd s
  = (if has_empty_batch fd then Raise RuntimeError else OK tt,
     {| self := with_data (dict_mapi (fun _ => gaussian_stats)
                                     (before_first_empty fd)) (self s);
        stdout := stdout s ++
                  repeat singleton_warning
                         (singleton_layers (before_first_empty fd));
        disk := disk s |}).
Proof.
  intros Hnd. unfold fit_distribution. unfold bind at 1.
  unfold set_data at 1.
  rewrite (fit_loop fd fd Hnd).
  - reflexivity.
  - intros l t Hin. now apply dict_get_in.
  - cbn. auto.
Qed.

Lemma before_first_empty_all (fd : dict Tensor) :
  has_empty_batch fd = false -> before_first_empty fd = fd.
Proof.
  induction fd as [|[l t] fd IH]; [reflexivity|].
  cbn [has_empty_batch existsb snd before_first_empty].
  destruct (batch t =? 0)%nat; [discriminate|]. cbn [orb].
  intros H. f_equal. now apply IH.
Qed.

Lemma has_empty_batch_false (fd : dict Tensor) :
  (forall l t, In (l, t) fd -> batch t <> 0%nat) -> has_empty_batch fd = false.
Proof.
  intros H. unfold has_empty_batch.
  destruct (existsb _ fd) eqn:E; [|reflexivity].
  apply existsb_exists in E as [[l t] [Hin E]].
  apply Nat.eqb_eq in E. now apply H in Hin.
Qed.

Lemma has_empty_batch_true (fd : dict Tensor) (l : string) (t : Tensor) :
  In (l, t) fd -> batch t = 0%nat -> has_empty_batch fd = true.
Proof.
  intros Hin E. apply existsb_exists. exists (l, t). split; [exact Hin|].
  now apply Nat.eqb_eq.
Qed.

(** ** The entries of the fitted statistics *)

Lemma nth_map_seq {A} (f : nat -> A) (m j : nat) (d : A) :
  (j < m)%nat -> nth j (map f (seq 0 m)) d = f j.
Proof.
  intros Hj. rewrite (nth_indep _ d (f 0%nat)) by now rewrite length_map, length_seq.
  rewrite map_nth. now rewrite seq_nth.
Qed.

Lemma sample_nth (t : Tensor) (i j : nat) :
  (j < prod_shape (feat_shape t))%nat ->
  nth j (sample t i) NonFinite =
  nth (i * prod_shape (feat_shape t) + j) (storage t) NonFinite.
Proof.
  intros Hj. unfold sample. rewrite nth_firstn.
  apply Nat.ltb_lt in Hj. rewrite Hj. apply nth_skipn.
Qed.

Lemma column_flat (t : Tensor) (j : nat) :
  (j < prod_shape (feat_shape t))%nat ->
  column (flat t) j = neuron_samples t j.
Proof.
  intros Hj. unfold column, neuron_samples, mat_get. cbn [flat nrows ncols mdata].
  apply map_ext. intros i. now rewrite sample_nth.
Qed.

Lemma length_neuron_samples (t : Tensor) (j : nat) :
  length (neuron_samples t j) = batch t.
Proof. unfold neuron_samples. now rewrite length_map, length_seq. Qed.

Lemma length_torch_mean (m : Matrix) : length (torch_mean_dim0 m) = ncols m.
Proof. unfold torch_mean_dim0. now rewrite length_map, length_seq. Qed.

Lemma length_torch_var (m : Matrix) (c : Z) :
  length (torch_var_dim0 m c) = ncols m.
Proof. unfold torch_var_dim0. now rewrite length_map, length_seq. Qed.

Lemma torch_mean_nth (t : Tensor) (j : nat) :
  (j < prod_shape (feat_shape t))%nat ->
  nth j (torch_mean_dim0 (flat t)) NonFinite = mean (neuron_samples t j).
Proof.
  intros Hj. unfold torch_mean_dim0. cbn [ncols flat].
  rewrite nth_map_seq by exact Hj.
  change (ncols (flat t)) with (prod_shape (feat_shape t)).
  rewrite (column_flat t j Hj). unfold mean.
  now rewrite length_neuron_samples.
Qed.

Lemma torch_var_nth (t : Tensor) (j : nat) :
  (1 <= batch t)%nat ->
  (j < prod_shape (feat_shape t))%nat ->
  nth j (torch_var_dim0 (flat t) 1) NonFinite = unbiased_var (neuron_samples t j).
Proof.
  intros Hn Hj. unfold torch_var_dim0. cbn [ncols flat].
  rewrite nth_map_seq by exact Hj.
  change (ncols (flat t)) with (prod_shape (feat_shape t)).
  cbv zeta. rewrite (column_flat t j Hj).
  unfold unbiased_var, sum_sq_dev, mean. rewrite length_neuron_samples.
  cbn [nrows flat]. now rewrite Z.max_r by lia.
Qed.

(** The statistics stored for a layer once the fit has succeeded. *)
Lemma fit_distribution_layer (fd : dict Tensor) (s : Interp) (layer : string)
  (t : Tensor) :
  NoDup (keys fd) ->
  (forall l' t', In (l', t') fd -> batch t' <> 0%nat) ->
  In (layer, t) fd ->
  exists s',
    fit_distribution fd s = (OK tt, s') /\
    data (self s') = dict_mapi (fun _ => gaussian_stats) fd /\
    dict_get layer (data (self s')) = Some (gaussian_stats t) /\
    stdout s' = stdout s ++ repeat singleton_warning (singleton_layers fd) /\
    disk s' = disk s.
Proof.
  intros Hnd Hne Hin. eexists. rewrite (fit_distribution_run fd s Hnd).
  rewrite (has_empty_batch_false fd Hne).
  rewrite (before_first_empty_all fd (has_empty_batch_false fd Hne)).
  split; [reflexivity|]. cbn [self data with_data stdout disk].
  repeat split.
  rewrite dict_get_mapi, (dict_get_in layer t fd Hnd Hin). reflexivity.
Qed.

Lemma getitem2_ok (d : dict LayerStats) (l k : string) (st : LayerStats) :
  dict_get l d = Some st -> getitem2 d l k = getitem st k.
Proof. intros H. unfold getitem2. now rewrite (getitem_ok d l st H). Qed.

Lemma NoDup_keys_two {V} (k1 k2 : string) (v1 v2 : V) :
  String.eqb k1 k2 = false -> NoDup (keys [(k1, v1); (k2, v2)]).
Proof.
  intros E. apply String.eqb_neq in E.
  repeat constructor; cbn; intuition.
Qed.

Lemma NoDup_keys_one {V} (k : string) (v : V) : NoDup (keys [(k, v)]).
Proof. repeat constructor; cbn; intuition. Qed.

(** C2: when the batch of a layer has more than one sample,
    [fit_distribution] stores for it a [mu] and a [var] with one entry per
    neuron of the flattened samples; entry [j] of [mu] is the arithmetic mean
    of neuron [j] over the samples and entry [j] of [var] is the sum of the
    squared deviations from that mean divided by [sample_count - 1]. *)
Theorem fit_distribution_mean_unbiased_var
  (fd : dict Tensor) (s : Interp) (layer : string) (t : Tensor) :
  NoDup (keys fd) ->
  (forall l' t', In (l', t') fd -> batch t' <> 0%nat) ->
  In (layer, t) fd ->
  (1 < batch t)%nat ->
  exists s' mu var,
    fit_distribution fd s = (OK tt, s') /\
    getitem2 (data (self s')) layer "mu" = OK mu /\
    getitem2 (data (self s')) layer "var" = OK var /\
    length mu = prod_shape (feat_shape t) /\
    length var = prod_shape (feat_shape t) /\
    forall j, (j < prod_shape (feat_shape t))%nat ->
      nth j mu NonFinite = mean (neuron_samples t j) /\
      nth j var NonFinite = unbiased_var (neuron_samples t j).
Proof.
  intros Hnd Hne Hin Hn.
  destruct (fit_distribution_layer fd s layer t Hnd Hne Hin)
    as (s' & Hfit & _ & Hget & _).
  exists s', (torch_mean_dim0 (flat t)), (torch_var_dim0 (flat t) 1).
  split; [exact Hfit|].
  rewrite !(getitem2_ok _ _ _ _ Hget). unfold gaussian_stats.
  apply Nat.ltb_lt in Hn. rewrite Hn. apply Nat.ltb_lt in Hn.
  repeat split.
  - apply length_torch_mean.
  - apply length_torch_var.
  - now apply torch_mean_nth.
  - apply torch_var_nth; [lia | assumption].
Qed.

Lemma fit_distribution_mean_unbiased_var_witness :
  exists s' mu var,
    fit_distribution [("a", ex_pair); ("b", ex_single)] fresh = (OK tt, s') /\
    getitem2 (data (self s')) "a" "mu" = OK mu /\
    getitem2 (data (self s')) "a" "var" = OK var /\
    length mu = 2%nat /\
    length var = 2%nat /\
    forall j, (j < 2)%nat ->
      nth j mu NonFinite = mean (neuron_samples ex_pair j) /\
      nth j var NonFinite = unbiased_var (neuron_samples ex_pair j).
Proof.
  apply (fit_distribution_mean_unbiased_var
           [("a", ex_pair); ("b", ex_single)] fresh "a" ex_pair).
  - now apply NoDup_keys_two.
  - intros l' t' [H|[H|[]]]; injection H as <- <-; discriminate.
  - now left.
  - cbn. lia.
Defined.

(** ** A batch of one sample *)

Lemma mean_single (x : scalar) : mean [x] = x.
Proof.
  unfold mean. cbn [length ssum fold_right Z.of_nat Pos.of_succ_nat].
  destruct x as [q|]; [|reflexivity].
  cbn [sadd lift2 szero sdivz Z.eqb]. f_equal.
  rewrite ZtoQc_1. field. discriminate.
Qed.

Lemma map_nth_seq_id (v : list scalar) :
  map (fun j => nth j v NonFinite) (seq 0 (length v)) = v.
Proof.
  apply (nth_ext _ _ NonFinite NonFinite).
  - now rewrite length_map, length_seq.
  - intros j Hj. rewrite length_map, length_seq in Hj.
    now rewrite nth_map_seq.
Qed.

Lemma torch_mean_single (t : Tensor) :
  batch t = 1%nat -> tensor_wf t -> torch_mean_dim0 (flat t) = storage t.
Proof.
  intros Hn Hwf. unfold tensor_wf, numel in Hwf. rewrite Hn, Nat.mul_1_l in Hwf.
  unfold torch_mean_dim0, column, mat_get. cbn [flat nrows ncols mdata].
  rewrite Hn. cbn [seq map Nat.mul Nat.add].
  rewrite <- Hwf. rewrite <- (map_nth_seq_id (storage t)) at 2.
  apply map_ext. intros j. apply mean_single.
Qed.

Lemma singleton_layers_pos (fd : dict Tensor) (l : string) (t : Tensor) :
  In (l, t) fd -> batch t = 1%nat -> (0 < singleton_layers fd)%nat.
Proof.
  intros Hin Hn. unfold singleton_layers.
  assert (H : In (l, t) (filter (fun p => (batch (snd p) =? 1)%nat) fd)).
  { apply filter_In. split; [exact Hin|]. now apply Nat.eqb_eq. }
  destruct (filter _ fd); [destruct H | cbn; lia].
Qed.

(** C3: when the batch of a layer has exactly one sample, the fit does not
    fail; [mu] is the sample itself (its own mean), [var] is a vector of
    zeros as long as [mu], and the warning is printed (once per layer that
    has a single sample). *)
Theorem fit_distribution_single_sample
  (fd : dict Tensor) (s : Interp) (layer : string) (t : Tensor) :
  NoDup (keys fd) ->
  (forall l' t', In (l', t') fd -> batch t' <> 0%nat) ->
  In (layer, t) fd ->
  batch t = 1%nat ->
  tensor_wf t ->
  exists s' mu var k,
    fit_distribution fd s = (OK tt, s') /\
    getitem2 (data (self s')) layer "mu" = OK mu /\
    getitem2 (data (self s')) layer "var" = OK var /\
    mu = storage t /\
    (forall j, (j < prod_shape (feat_shape t))%nat ->
               nth j mu NonFinite = mean (neuron_samples t j)) /\
    var = repeat (Finite 0%Qc) (length mu) /\
    (0 < k)%nat /\
    stdout s' = stdout s ++ repeat singleton_warning k.
Proof.
  intros Hnd Hne Hin Hn Hwf.
  destruct (fit_distribution_layer fd s layer t Hnd Hne Hin)
    as (s' & Hfit & _ & Hget & Hout & _).
  exists s', (torch_mean_dim0 (flat t)), (zeros_like (torch_mean_dim0 (flat t))),
    (singleton_layers fd).
  split; [exact Hfit|].
  rewrite !(getitem2_ok _ _ _ _ Hget). unfold gaussian_stats.
  rewrite Hn. cbn [Nat.ltb Nat.leb dict_get getitem String.eqb Ascii.eqb Bool.eqb].
  repeat split.
  - now apply torch_mean_single.
  - intros j Hj. now apply torch_mean_nth.
  - eapply singleton_layers_pos; eauto.
  - exact Hout.
Qed.

Lemma fit_distribution_single_sample_witness :
  exists s' mu var k,
    fit_distribution [("a", ex_single)] fresh = (OK tt, s') /\
    getitem2 (data (self s')) "a" "mu" = OK mu /\
    getitem2 (data (self s')) "a" "var" = OK var /\
    mu = zs [5; 7]%Z /\
    (forall j, (j < 2)%nat ->
               nth j mu NonFinite = mean (neuron_samples ex_single j)) /\
    var = repeat (Finite 0%Qc) (length mu) /\
    (0 < k)%nat /\
    stdout s' = [] ++ repeat singleton_warning k.
Proof.
  apply (fit_distribution_single_sample [("a", ex_single)] fresh "a" ex_single).
  - apply NoDup_keys_one.
  - intros l' t' [H|[]]; injection H as <- <-; discriminate.
  - now left.
  - reflexivity.
  - reflexivity.
Defined.

(** ** A batch without a sample *)

Lemma before_first_empty_incl (fd : dict Tensor) (l : string) (t : Tensor) :
  In (l, t) (before_first_empty fd) -> In (l, t) fd /\ batch t <> 0%nat.
Proof.
  induction fd as [|[l' t'] fd IH]; cbn; [intros []|].
  destruct (batch t' =? 0)%nat eqn:E; [intros []|].
  intros [H|H].
  - injection H as -> ->. apply Nat.eqb_neq in E. auto.
  - apply IH in H as [H1 H2]. auto.
Qed.

Lemma NoDup_before_first_empty (fd : dict Tensor) :
  NoDup (keys fd) -> NoDup (keys (before_first_empty fd)).
Proof.
  induction fd as [|[l t] fd IH]; cbn; [auto|]. intros Hnd.
  inversion Hnd as [|? ? Hl Hnd']; subst.
  destruct (batch t =? 0)%nat; cbn; [constructor|].
  constructor; [|now apply IH].
  intros Hin. apply Hl. unfold keys in *. apply in_map_iff in Hin as [[l' t'] [E Hin]].
  cbn in E. subst l'. apply before_first_empty_incl in Hin as [Hin _].
  change l with (fst (l, t')). now apply in_map.
Qed.

(** C4: whenever the batch of some layer has no sample, [fit_distribution]
    raises (the [RuntimeError] of [view], which cannot infer the flattened
    dimension of an empty batch; the specification calls it [ShapeError]).
    The previous statistics are gone, and the instance holds the statistics
    of exactly the layers that come before the first empty batch. *)
Theorem fit_distribution_empty_batch_raises (fd : dict Tensor) (s : Interp) :
  NoDup (keys fd) ->
  (exists l t, In (l, t) fd /\ batch t = 0%nat) ->
  exists s',
    fit_distribution fd s = (Raise RuntimeError, s') /\
    keys (data (self s')) = keys (before_first_empty fd) /\
    (forall l t, In (l, t) (before_first_empty fd) ->
                 dict_get l (data (self s')) = Some (gaussian_stats t)).
Proof.
  intros Hnd (l & t & Hin & Hn). eexists.
  rewrite (fit_distribution_run fd s Hnd).
  rewrite (has_empty_batch_true fd l t Hin Hn).
  split; [reflexivity|]. cbn [self data with_data]. split.
  - apply keys_dict_mapi.
  - intros l' t' Hin'. rewrite dict_get_mapi.
    rewrite (dict_get_in l' t' _ (NoDup_before_first_empty fd Hnd) Hin').
    reflexivity.
Qed.

Lemma fit_distribution_empty_batch_raises_witness :
  exists s',
    fit_distribution [("a", ex_pair); ("b", ex_empty)] fresh
    = (Raise RuntimeError, s') /\
    keys (data (self s')) = ["a"] /\
    (forall l t, In (l, t) [("a", ex_pair)] ->
                 dict_get l (data (self s')) = Some (gaussian_stats t)).
Proof.
  apply (fit_distribution_empty_batch_raises
           [("a", ex_pair); ("b", ex_empty)] fresh).
  - now apply NoDup_keys_two.
  - exists "b", ex_empty. split; [right; now left | reflexivity].
Defined.

(** C4 as the specification words it fails: after the failure on the empty
    batch of layer ["b"], the instance holds statistics for layer ["a"]. *)
Lemma fit_distribution_empty_batch_keeps_earlier :
  (exists l t, In (l, t) [("a", ex_pair); ("b", ex_empty)] /\ batch t = 0%nat) /\
  ~ (exists e s',
       fit_distribution [("a", ex_pair); ("b", ex_empty)] fresh = (Raise e, s') /\
       data (self s') = []).
Proof.
  split.
  - exists "b", ex_empty. split; [right; now left | reflexivity].
  - intros (e & s' & Hfit & Hdata).
    rewrite fit_distribution_run in Hfit by now apply NoDup_keys_two.
    cbn in Hfit. injection Hfit as _ Hs. subst s'. discriminate Hdata.
Qed.

(** ** Queries *)

Lemma tensor_index_negative (v : vec) (i : Z) :
  (- Z.of_nat (length v) <= i < 0)%Z ->
  tensor_index v i = OK (nth (Z.to_nat (Z.of_nat (length v) + i)) v NonFinite).
Proof.
  intros [Hlo Hhi]. unfold tensor_index.
  destruct (0 <=? i)%Z eqn:E0; [apply Z.leb_le in E0; lia|].
  cbn [andb].
  apply Z.leb_le in Hlo. apply Z.ltb_lt in Hhi. now rewrite Hlo, Hhi.
Qed.

Lemma length_gaussian_mu (t : Tensor) :
  length (torch_mean_dim0 (flat t)) = prod_shape (feat_shape t).
Proof. apply length_torch_mean. Qed.

Lemma gaussian_stats_shape (t : Tensor) :
  exists mu var,
    gaussian_stats t = [("mu", mu); ("var", var)] /\
    length mu = prod_shape (feat_shape t) /\
    length var = prod_shape (feat_shape t).
Proof.
  unfold gaussian_stats. do 2 eexists. split; [reflexivity|]. split.
  - apply length_torch_mean.
  - destruct (1 <? batch t)%nat.
    + apply length_torch_var.
    + unfold zeros_like. rewrite repeat_length. apply length_torch_mean.
Qed.

(** C10: on a fitted distribution, a negative index [i] with
    [-neuron_count <= i < 0] is accepted by [get_neuron_dist], which answers
    with the [mu] and [var] of neuron [neuron_count + i]. *)
Theorem get_neuron_dist_negative_index
  (fd : dict Tensor) (s : Interp) (layer : string) (t : Tensor) (i : Z) :
  NoDup (keys fd) ->
  (forall l' t', In (l', t') fd -> batch t' <> 0%nat) ->
  In (layer, t) fd ->
  (- Z.of_nat (prod_shape (feat_shape t)) <= i < 0)%Z ->
  exists s' mu var,
    fit_distribution fd s = (OK tt, s') /\
    getitem2 (data (self s')) layer "mu" = OK mu /\
    getitem2 (data (self s')) layer "var" = OK var /\
    length mu = prod_shape (feat_shape t) /\
    length var = prod_shape (feat_shape t) /\
    get_neuron_dist (self s') layer i =
    OK [("mu", nth (Z.to_nat (Z.of_nat (prod_shape (feat_shape t)) + i)) mu NonFinite);
        ("var", nth (Z.to_nat (Z.of_nat (prod_shape (feat_shape t)) + i)) var NonFinite)].
Proof.
  intros Hnd Hne Hin Hi.
  destruct (fit_distribution_layer fd s layer t Hnd Hne Hin)
    as (s' & Hfit & _ & Hget & _).
  destruct (gaussian_stats_shape t) as (mu & var & Hst & Hmu & Hvar).
  exists s', mu, var. split; [exact Hfit|].
  rewrite !(getitem2_ok _ _ _ _ Hget), Hst.
  repeat split; try assumption.
  unfold get_neuron_dist. rewrite (getitem_ok _ _ _ Hget), Hst.
  cbn [rbind getitem dict_get String.eqb Ascii.eqb Bool.eqb].
  rewrite !tensor_index_negative by (rewrite ?Hmu, ?Hvar; exact Hi).
  cbn [rbind]. now rewrite Hmu, Hvar.
Qed.

Lemma get_neuron_dist_negative_index_witness :
  exists s' mu var,
    fit_distribution [("a", ex_pair)] fresh = (OK tt, s') /\
    getitem2 (data (self s')) "a" "mu" = OK mu /\
    getitem2 (data (self s')) "a" "var" = OK var /\
    length mu = 2%nat /\
    length var = 2%nat /\
    get_neuron_dist (self s') "a" (-1) =
    OK [("mu", nth 1 mu NonFinite); ("var", nth 1 var NonFinite)].
Proof.
  apply (get_neuron_dist_negative_index [("a", ex_pair)] fresh "a" ex_pair (-1)).
  - apply NoDup_keys_one.
  - intros l' t' [H|[]]; injection H as <- <-; discriminate.
  - now left.
  - cbn. lia.
Defined.

(** ** Loading *)

Lemma setitem_data_run (l : string) (st : LayerStats) (s : Interp) :
  setitem_data l st s = (OK tt, put_data (dict_set l st (data (self s))) s).
Proof. reflexivity. Qed.

Lemma setitem_data2_run (l k : string) (v : vec) (st : LayerStats) (s : Interp) :
  dict_get l (data (self s)) = Some st ->
  setitem_data2 l k v s =
  (OK tt, put_data (dict_set l (dict_set k v st) (data (self s))) s).
Proof.
  intros H. unfold setitem_data2. now rewrite (getitem_ok _ _ _ H).
Qed.

Lemma load_layer (z : Npz) (l : string) (s : Interp) :
  has_arrays z l ->
  (setitem_data l [] ;;
   mu <- lift (npz_getitem z ("mu-" ++ l)%string) ;;
   setitem_data2 l "mu" mu ;;
   var <- lift (npz_getitem z ("var-" ++ l)%string) ;;
   setitem_data2 l "var" var)%py s
  = (OK tt, put_data (dict_set l (loaded_stats z l) (data (self s))) s).
Proof.
  intros [[m Hm] [v Hv]]. unfold bind at 1. rewrite setitem_data_run.
  unfold bind at 1, lift at 1. rewrite Hm.
  unfold bind at 1.
  rewrite (setitem_data2_run l "mu" m []) by apply dict_get_set_eq.
  unfold bind at 1, lift at 1. rewrite Hv.
  cbn [put_data self data with_data].
  rewrite dict_set_set.
  rewrite (setitem_data2_run l "var" v [("mu", m)]) by apply dict_get_set_eq.
  cbn [put_data self data with_data stdout disk].
  rewrite dict_set_set. unfold loaded_stats, npz_array. rewrite Hm, Hv.
  reflexivity.
Qed.

Lemma load_loop (z : Npz) (layers : list string) :
  NoDup layers ->
  (forall l, In l layers -> has_arrays z l) ->
  forall s, (forall l, In l layers -> ~ In l (keys (data (self s)))) ->
  for_each layers (fun layer =>
    (setitem_data layer [] ;;
     mu <- lift (npz_getitem z ("mu-" ++ layer)%string) ;;
     setitem_data2 layer "mu" mu ;;
     var <- lift (npz_getitem z ("var-" ++ layer)%string) ;;
     setitem_data2 layer "var" var)%py) s
  = (OK tt,
     put_data (data (self s) ++ map (fun l => (l, loaded_stats z l)) layers) s).
Proof.
  induction layers as [|l layers IH]; intros Hnd Harr s Hfresh.
  - cbn. rewrite app_nil_r. now destruct s as [[]].
  - cbn [for_each]. inversion Hnd as [|? ? Hl Hnd']; subst.
    unfold bind at 1. rewrite load_layer by (apply Harr; now left).
    rewrite dict_set_fresh by (apply Hfresh; now left).
    rewrite IH; auto.
    + cbn [put_data self data with_data stdout disk map].
      now rewrite <- app_assoc.
    + intros l' Hin. apply Harr. now right.
    + cbn [put_data self data with_data]. intros l' Hin.
      rewrite keys_app, in_app_iff. cbn. intros [H|[H|[]]].
      * revert H. apply Hfresh. now right.
      * subst. contradiction.
Qed.

Lemma load_dist_data_run (rt : Runtime) (meta : dict string)
  (path device : string) (s : Interp) (z : Npz) :
  dict_get (with_suffix_npz rt path) (disk s) = Some z ->
  NoDup (neurons_list (self s)) ->
  (forall l, In l (neurons_list (self s)) -> has_arrays z l) ->
  _load_dist_data rt meta path device s
  = (OK tt,
     put_data (map (fun l => (l, loaded_stats z l)) (neurons_list (self s))) s).
Proof.
  intros Hz Hnd Harr. unfold _load_dist_data.
  unfold bind at 1, np_load. rewrite Hz.
  unfold bind at 1, set_data at 1. unfold bind at 1, get_self at 1.
  cbn [self with_data neurons_list].
  rewrite load_loop; auto.
Qed.

(** ** The global query *)

Lemma all_loop (d items : dict LayerStats) :
  (forall l st, In (l, st) items -> dict_get l d = Some st) ->
  (forall l st, In (l, st) items -> has_mu_var st) ->
  forall mus variances,
  for_in (keys items)
    (fun layer_name (acc : list vec * list vec) =>
       let (mus, variances) := acc in
       (try! st := getitem d layer_name in
        try! mu := getitem st "mu" in
        let mus := mus ++ [mu] in
        try! st' := getitem d layer_name in
        try! var := getitem st' "var" in
        let variances := variances ++ [var] in
        OK (mus, variances))%result)
    (mus, variances)
  = OK (mus ++ map (fun l => layer_field d l "mu") (keys items),
        variances ++ map (fun l => layer_field d l "var") (keys items)).
Proof.
  induction items as [|[l st] items IH]; intros Hget Hst mus variances.
  - cbn. now rewrite !app_nil_r.
  - cbn [keys map fst for_in]. fold (keys items).
    assert (Hl : dict_get l d = Some st) by (apply Hget; now left).
    destruct (Hst l st (or_introl eq_refl)) as (mu & var & ->).
    unfold layer_field. rewrite !(getitem2_ok _ _ _ _ Hl).
    rewrite (getitem_ok _ _ _ Hl).
    cbn [rbind getitem dict_get String.eqb Ascii.eqb Bool.eqb].
    rewrite IH.
    + now rewrite <- !app_assoc.
    + intros ? ? Hin. apply Hget. now right.
    + intros ? ? Hin. eapply Hst. right. exact Hin.
Qed.

Lemma get_all_neurons_dists_run (v : VDNAGauss) :
  NoDup (keys (data v)) ->
  (forall l st, In (l, st) (data v) -> has_mu_var st) ->
  data v <> [] ->
  get_all_neurons_dists v
  = OK [("mu", concat (map (fun l => layer_field (data v) l "mu") (keys (data v))));
        ("var", concat (map (fun l => layer_field (data v) l "var") (keys (data v))))].
Proof.
  intros Hnd Hst Hne. unfold get_all_neurons_dists.
  rewrite (all_loop (data v) (data v)); auto.
  - cbn [rbind app]. destruct (data v) as [|[l st] d']; [contradiction|].
    reflexivity.
  - intros l st Hin. now apply dict_get_in.
Qed.

Lemma get_all_neurons_dists_empty (v : VDNAGauss) :
  data v = [] -> get_all_neurons_dists v = Raise RuntimeError.
Proof. intros H. unfold get_all_neurons_dists. now rewrite H. Qed.

(** C9 (without the case of a distribution that has no layer): after a fit
    or a load that stored at least one layer, the keys of [self.data] are the
    layers in the order they were added, and [get_all_neurons_dists] returns
    the concatenation of the per-layer [mu] and of the per-layer [var] in
    that order. *)
Theorem get_all_neurons_dists_insertion_order :
  (forall (fd : dict Tensor) (s : Interp),
      NoDup (keys fd) ->
      (forall l t, In (l, t) fd -> batch t <> 0%nat) ->
      fd <> [] ->
      exists s',
        fit_distribution fd s = (OK tt, s') /\
        keys (data (self s')) = keys fd /\
        get_all_neurons_dists (self s') =
        OK [("mu", concat (map (fun l => layer_field (data (self s')) l "mu")
                               (keys fd)));
            ("var", concat (map (fun l => layer_field (data (self s')) l "var")
                                (keys fd)))]) /\
  (forall (rt : Runtime) (meta : dict string) (path device : string)
          (s : Interp) (z : Npz),
      dict_get (with_suffix_npz rt path) (disk s) = Some z ->
      NoDup (neurons_list (self s)) ->
      (forall l, In l (neurons_list (self s)) -> has_arrays z l) ->
      neurons_list (self s) <> [] ->
      exists s',
        _load_dist_data rt meta path device s = (OK tt, s') /\
        keys (data (self s')) = neurons_list (self s) /\
        get_all_neurons_dists (self s') =
        OK [("mu", concat (map (fun l => layer_field (data (self s')) l "mu")
                               (neurons_list (self s))));
            ("var", concat (map (fun l => layer_field (data (self s')) l "var")
                                (neurons_list (self s))))]).
Proof.
  split.
  - intros fd s Hnd Hne Hfd.
    destruct fd as [|[l0 t0] fd0] eqn:Efd; [contradiction|]. rewrite <- Efd in *.
    destruct (fit_distribution_layer fd s l0 t0 Hnd Hne)
      as (s' & Hfit & Hdata & _); [rewrite Efd; now left|].
    exists s'. split; [exact Hfit|].
    assert (Hk : keys (data (self s')) = keys fd)
      by (rewrite Hdata; apply keys_dict_mapi).
    split; [exact Hk|]. rewrite <- Hk.
    apply get_all_neurons_dists_run.
    + now rewrite Hk.
    + rewrite Hdata. intros l st Hin. unfold dict_mapi in Hin.
      apply in_map_iff in Hin as [[l' t'] [E _]]. cbn in E.
      injection E as _ <-. unfold gaussian_stats, has_mu_var. eauto.
    + rewrite Hdata, Efd. discriminate.
  - intros rt meta path device s z Hz Hnd Harr Hne.
    eexists. rewrite (load_dist_data_run rt meta path device s z Hz Hnd Harr).
    split; [reflexivity|]. cbn [put_data self data with_data].
    assert (Hk : keys (map (fun l => (l, loaded_stats z l)) (neurons_list (self s)))
                 = neurons_list (self s)).
    { unfold keys. rewrite map_map. cbn. apply map_id. }
    split; [exact Hk|].
    rewrite get_all_neurons_dists_run.
    + cbn [data with_data]. now rewrite Hk.
    + cbn [data with_data]. now rewrite Hk.
    + cbn [data with_data]. intros l st Hin.
      apply in_map_iff in Hin as [l' [E _]]. injection E as _ <-.
      unfold loaded_stats, has_mu_var. eauto.
    + cbn [data with_data]. destruct (neurons_list (self s)); [contradiction|].
      discriminate.
Qed.

Lemma get_all_neurons_dists_insertion_order_witness :
  exists s',
    fit_distribution [("a", ex_pair); ("b", ex_single)] fresh = (OK tt, s') /\
    keys (data (self s')) = ["a"; "b"] /\
    get_all_neurons_dists (self s') =
    OK [("mu", concat (map (fun l => layer_field (data (self s')) l "mu")
                           ["a"; "b"]));
        ("var", concat (map (fun l => layer_field (data (self s')) l "var")
                            ["a"; "b"]))].
Proof.
  apply (proj1 get_all_neurons_dists_insertion_order
               [("a", ex_pair); ("b", ex_single)] fresh).
  - now apply NoDup_keys_two.
  - intros l' t' [H|[H|[]]]; injection H as <- <-; discriminate.
  - discriminate.
Defined.

(** C9 as the specification words it fails on a distribution fitted on no
    layer: the fit succeeds and the global query raises, [torch.cat] being
    given an empty list. *)
Lemma get_all_neurons_dists_no_layer :
  fst (fit_distribution [] fresh) = OK tt /\
  get_all_neurons_dists (self (snd (fit_distribution [] fresh)))
  = Raise RuntimeError.
Proof. split; reflexivity. Qed.

(** ** Merging: the loop *)

Lemma length_map2 (f : scalar -> scalar -> scalar) (x y : vec) :
  length x = length y -> length (map2 f x y) = length x.
Proof.
  intros H. unfold map2. rewrite length_map, length_combine, <- H.
  apply Nat.min_id.
Qed.

Lemma length_vmulz (v : vec) (n : Z) : length (vmulz v n) = length v.
Proof. apply length_map. Qed.

Lemma length_vdivz (v : vec) (n : Z) : length (vdivz v n) = length v.
Proof. apply length_map. Qed.

Lemma length_vsquare (v : vec) : length (vsquare v) = length v.
Proof. apply length_map. Qed.

Lemma broadcast2_same (f : scalar -> scalar -> scalar) (x y : vec) :
  length x = length y -> broadcast2 f x y = OK (map2 f x y).
Proof.
  intros H. unfold broadcast2. apply Nat.eqb_eq in H. now rewrite H.
Qed.

Lemma length_merged_mu (mu_a mu_b : vec) (n_a n_b : Z) :
  length mu_a = length mu_b ->
  length (merged_mu mu_a mu_b n_a n_b) = length mu_a.
Proof.
  intros H. unfold merged_mu.
  rewrite length_vdivz, length_map2, length_vmulz; [reflexivity|].
  now rewrite !length_vmulz.
Qed.

Ltac vlen :=
  repeat first
    [ rewrite length_vdivz | rewrite length_vmulz | rewrite length_vsquare
    | rewrite length_merged_mu by (try assumption; congruence)
    | rewrite length_map2 ];
  try assumption; try congruence.

Lemma length_merged_var (mu_a var_a mu_b var_b : vec) (n_a n_b : Z) :
  length mu_a = length var_a ->
  length mu_a = length mu_b ->
  length mu_b = length var_b ->
  length (merged_var mu_a var_a mu_b var_b n_a n_b) = length mu_a.
Proof.
  intros H1 H2 H3. unfold merged_var. cbv zeta. vlen; vlen.
Qed.

Lemma add_layer_ok (a b : VDNAGauss) (l : string)
  (mu_a var_a mu_b var_b : vec) (acc : dict LayerStats) :
  dict_get l (data a) = Some [("mu", mu_a); ("var", var_a)] ->
  dict_get l (data b) = Some [("mu", mu_b); ("var", var_b)] ->
  length mu_a = length var_a ->
  length mu_a = length mu_b ->
  length mu_b = length var_b ->
  add_layer a b l acc = OK (dict_set l (merged_stats a b l) acc).
Proof.
  intros Ha Hb H1 H2 H3. unfold add_layer. cbv zeta.
  rewrite !(getitem2_ok _ _ _ _ Ha), !(getitem2_ok _ _ _ _ Hb).
  cbn [rbind getitem dict_get String.eqb Ascii.eqb Bool.eqb].
  unfold vadd, vsub.
  rewrite (broadcast2_same sadd (vmulz mu_a _) (vmulz mu_b _)) by vlen.
  cbn [rbind]. fold (merged_mu mu_a mu_b (num_images a) (num_images b)).
  set (mu := merged_mu mu_a mu_b (num_images a) (num_images b)).
  assert (Hmu : length mu = length mu_a) by now apply length_merged_mu.
  rewrite (getitem_ok _ _ _ (dict_get_set_eq l [] acc)). cbn [rbind dict_set].
  rewrite dict_set_set.
  rewrite !(getitem2_ok _ _ _ _ (dict_get_set_eq l [("mu", mu)] acc)).
  cbn [rbind getitem dict_get String.eqb Ascii.eqb Bool.eqb].
  rewrite (broadcast2_same ssub mu_a mu) by congruence. cbn [rbind].
  rewrite (broadcast2_same sadd (vmulz var_a _)) by (vlen; vlen).
  cbn [rbind].
  rewrite (broadcast2_same sadd (map2 sadd _ _) (vmulz var_b _)) by (vlen; vlen).
  cbn [rbind].
  rewrite (broadcast2_same ssub mu_b mu) by congruence. cbn [rbind].
  rewrite (broadcast2_same sadd (map2 sadd _ _) (vmulz (vsquare _) _))
    by (vlen; vlen).
  cbn [rbind].
  unfold getitem at 1. rewrite dict_get_set_eq.
  cbn [rbind dict_set String.eqb Ascii.eqb Bool.eqb].
  rewrite dict_set_set. unfold merged_stats, layer_field. cbv zeta.
  rewrite !(getitem2_ok _ _ _ _ Ha), !(getitem2_ok _ _ _ _ Hb).
  cbn [getitem dict_get String.eqb Ascii.eqb Bool.eqb].
  reflexivity.
Qed.

(** ** Merging: the schema *)

Lemma option_nat_eqb_eq (x y : option nat) :
  option_nat_eqb x y = true <-> x = y.
Proof.
  destruct x as [x|], y as [y|]; cbn; split; try discriminate; try reflexivity.
  - intros H. apply Nat.eqb_eq in H. now subst.
  - intros [= ->]. apply Nat.eqb_refl.
Qed.

Lemma same_schema_iff (a b : VDNAGauss) :
  same_schema a b = true <-> SameSchema a b.
Proof.
  unfold same_schema, SameSchema. rewrite !andb_true_iff, !forallb_forall.
  split.
  - intros [[Hab Hba] Hcount]. split.
    + intros l. split; intros H.
      * apply has_key_in. now apply Hab.
      * apply has_key_in. now apply Hba.
    + intros l sa sb Hsa Hsb.
      specialize (Hcount l (dict_get_keys _ _ _ Hsa)).
      rewrite Hsa, Hsb in Hcount. now apply option_nat_eqb_eq.
  - intros [Hkeys Hcount]. repeat split.
    + intros l H. apply has_key_in. now apply Hkeys.
    + intros l H. apply has_key_in. now apply Hkeys.
    + intros l H.
      destruct (dict_get_in_keys l (data a) H) as [sa Hsa].
      destruct (dict_get_in_keys l (data b) (proj1 (Hkeys l) H)) as [sb Hsb].
      rewrite Hsa, Hsb. apply option_nat_eqb_eq. eapply Hcount; eauto.
Qed.

Lemma dist_wf_lookup (d : VDNAGauss) (l : string) (st : LayerStats) :
  dist_wf d -> dict_get l (data d) = Some st -> stats_wf st.
Proof.
  intros [_ Hall] H. apply dict_get_some_in in H.
  rewrite Forall_forall in Hall. exact (Hall _ H).
Qed.

(** On well-formed operands of one schema the merge succeeds, with the
    merged statistics of every layer of the left operand, in its order. *)
Lemma add_ok (a b : VDNAGauss) :
  dist_wf a -> dist_wf b -> SameSchema a b -> __add__ a b = OK (merged a b).
Proof.
  intros Ha Hb Hs. unfold __add__, _common_before_add. cbv zeta.
  rewrite (proj2 (same_schema_iff a b) Hs). cbn [rbind data __init__].
  rewrite (for_in_fill (data a) (add_layer a b) (fun l _ => merged_stats a b l)).
  - reflexivity.
  - apply Ha.
  - intros l sa acc Hin.
    assert (Hsa : dict_get l (data a) = Some sa)
      by (apply dict_get_in; [apply Ha | exact Hin]).
    destruct (dict_get_in_keys l (data b)) as [sb Hsb].
    { apply Hs. eapply dict_get_keys; eauto. }
    destruct (dist_wf_lookup a l sa Ha Hsa) as (mu_a & var_a & -> & La).
    destruct (dist_wf_lookup b l sb Hb Hsb) as (mu_b & var_b & -> & Lb).
    assert (Hc := proj2 Hs l _ _ Hsa Hsb). cbn in Hc. injection Hc as Hc.
    eapply add_layer_ok; eauto.
  - cbn. auto.
Qed.

Lemma add_mismatch (a b : VDNAGauss) :
  ~ SameSchema a b -> __add__ a b = Raise SchemaMismatchError.
Proof.
  intros Hs. unfold __add__, _common_before_add. cbv zeta.
  destruct (same_schema a b) eqn:E; [|reflexivity].
  apply same_schema_iff in E. contradiction.
Qed.

(** C5: the merge fails with [SchemaMismatchError] whenever the operands
    differ in their set of layer names or in the neuron count of a shared
    layer, and it succeeds only when they agree on both; on well-formed
    operands that agree on both it does succeed. *)
Theorem add_schema_mismatch (a b : VDNAGauss) :
  (~ SameSchema a b -> __add__ a b = Raise SchemaMismatchError) /\
  ((exists m, __add__ a b = OK m) -> SameSchema a b) /\
  (dist_wf a -> dist_wf b -> SameSchema a b -> exists m, __add__ a b = OK m).
Proof.
  split; [apply add_mismatch|]. split.
  - intros [m H]. destruct (same_schema a b) eqn:E.
    + now apply same_schema_iff.
    + rewrite add_mismatch in H; [discriminate|].
      intros Hs. apply same_schema_iff in Hs. congruence.
  - intros Ha Hb Hs. exists (merged a b). now apply add_ok.
Qed.

(** ** Merging: entry by entry *)

Lemma nth_map_lt (f : scalar -> scalar) (v : vec) (j : nat) :
  (j < length v)%nat ->
  nth j (map f v) NonFinite = f (nth j v NonFinite).
Proof.
  intros Hj. rewrite (nth_indep _ NonFinite (f NonFinite)) by now rewrite length_map.
  apply map_nth.
Qed.

Lemma nth_map2 (f : scalar -> scalar -> scalar) (x y : vec) (j : nat) :
  length x = length y -> (j < length x)%nat ->
  nth j (map2 f x y) NonFinite = f (nth j x NonFinite) (nth j y NonFinite).
Proof.
  intros Hl Hj. unfold map2.
  rewrite (nth_indep _ NonFinite
             ((fun p => f (fst p) (snd p)) (NonFinite, NonFinite)))
    by (rewrite length_map, length_combine, <- Hl, Nat.min_id; exact Hj).
  rewrite (map_nth (fun p => f (fst p) (snd p))).
  now rewrite combine_nth.
Qed.

Lemma merged_mu_nth (mu_a mu_b : vec) (n_a n_b : Z) (j : nat) :
  length mu_a = length mu_b -> (j < length mu_a)%nat ->
  nth j (merged_mu mu_a mu_b n_a n_b) NonFinite =
  mu_combined (nth j mu_a NonFinite) (nth j mu_b NonFinite) n_a n_b.
Proof.
  intros Hl Hj. unfold merged_mu, mu_combined, vdivz, vmulz.
  rewrite nth_map_lt by (rewrite length_map2; rewrite !length_map; congruence).
  rewrite nth_map2 by (rewrite !length_map; congruence).
  now rewrite !nth_map_lt by congruence.
Qed.

Lemma merged_var_nth (mu_a var_a mu_b var_b : vec) (n_a n_b : Z) (j : nat) :
  length mu_a = length var_a ->
  length mu_a = length mu_b ->
  length mu_b = length var_b ->
  (j < length mu_a)%nat ->
  nth j (merged_var mu_a var_a mu_b var_b n_a n_b) NonFinite =
  var_combined (nth j mu_a NonFinite) (nth j var_a NonFinite)
               (nth j mu_b NonFinite) (nth j var_b NonFinite) n_a n_b.
Proof.
  intros H1 H2 H3 Hj. unfold merged_var, var_combined. cbv zeta.
  rewrite <- (merged_mu_nth mu_a mu_b n_a n_b j H2 Hj).
  set (mu := merged_mu mu_a mu_b n_a n_b).
  assert (Hmu : length mu = length mu_a) by now apply length_merged_mu.
  unfold vdivz, vmulz, vsquare.
  repeat first
    [ rewrite nth_map_lt
        by (repeat first [rewrite length_map | rewrite length_map2];
            congruence)
    | rewrite nth_map2
        by (repeat first [rewrite length_map | rewrite length_map2];
            congruence) ].
  reflexivity.
Qed.

(** ** Merging: the algebra of the formulas *)

Section MergeAlgebra.
Local Open Scope Qc_scope.

Lemma eqb_false_pos (n : Z) : (0 < n)%Z -> (n =? 0)%Z = false.
Proof. intros H. apply Z.eqb_neq. lia. Qed.

Ltac unfold_scalar :=
  unfold mu_combined, var_combined, sdivz, smulz, ssquare, sadd, ssub, smul,
    lift2; cbv zeta.

Lemma mu_combined_comm (x y : scalar) (n_a n_b : Z) :
  mu_combined x y n_a n_b = mu_combined y x n_b n_a.
Proof.
  unfold_scalar. rewrite (Z.add_comm n_b n_a).
  destruct x, y; try reflexivity.
  destruct (n_a + n_b =? 0)%Z; [reflexivity|].
  unfold Qcdiv. do 2 f_equal. ring.
Qed.

Lemma var_combined_comm (mx vx my vy : scalar) (n_a n_b : Z) :
  var_combined mx vx my vy n_a n_b = var_combined my vy mx vx n_b n_a.
Proof.
  unfold var_combined. rewrite (mu_combined_comm my mx n_b n_a).
  rewrite (Z.add_comm n_b n_a).
  destruct (mu_combined mx my n_a n_b) as [m|];
    unfold sdivz, smulz, ssquare, sadd, ssub, smul, lift2;
    destruct mx, vx, my, vy; try reflexivity.
  destruct (n_a + n_b - 1 =? 0)%Z; [reflexivity|].
  unfold Qcdiv. do 2 f_equal. ring.
Qed.

Lemma mu_combined_finite (p q : Qc) (n_a n_b : Z) :
  (n_a + n_b <> 0)%Z ->
  mu_combined (Finite p) (Finite q) n_a n_b =
  Finite ((p * ZtoQc n_a + q * ZtoQc n_b) / (ZtoQc n_a + ZtoQc n_b)).
Proof.
  intros H. unfold_scalar. apply Z.eqb_neq in H. rewrite H.
  now rewrite ZtoQc_add.
Qed.

Lemma var_combined_finite (p u q w : Qc) (n_a n_b : Z) :
  (n_a + n_b <> 0)%Z ->
  (n_a + n_b - 1 <> 0)%Z ->
  var_combined (Finite p) (Finite u) (Finite q) (Finite w) n_a n_b =
  let a := ZtoQc n_a in
  let b := ZtoQc n_b in
  let m := (p * a + q * b) / (a + b) in
  Finite ((u * (a - 1) + (p - m) * (p - m) * a
           + w * (b - 1) + (q - m) * (q - m) * b) / (a + b - 1)).
Proof.
  intros H H1. unfold var_combined. rewrite mu_combined_finite by exact H.
  unfold sdivz, smulz, ssquare, sadd, ssub, smul, lift2. cbv zeta.
  apply Z.eqb_neq in H1. rewrite H1.
  now rewrite !ZtoQc_sub, !ZtoQc_add, ZtoQc_1.
Qed.

Lemma mu_combined_nonfinite_l (y : scalar) (n_a n_b : Z) :
  mu_combined NonFinite y n_a n_b = NonFinite.
Proof. reflexivity. Qed.

Lemma mu_combined_nonfinite_r (x : scalar) (n_a n_b : Z) :
  mu_combined x NonFinite n_a n_b = NonFinite.
Proof. now destruct x. Qed.

Lemma var_combined_nonfinite (mx vx my vy : scalar) (n_a n_b : Z) :
  is_finite mx && is_finite vx && is_finite my && is_finite vy = false ->
  var_combined mx vx my vy n_a n_b = NonFinite.
Proof.
  intros H. unfold var_combined.
  destruct (mu_combined mx my n_a n_b) as [m|] eqn:E;
    unfold sdivz, smulz, ssquare, sadd, ssub, smul, lift2;
    destruct mx, vx, my, vy; try reflexivity; discriminate H.
Qed.

Lemma mu_combined_assoc (x y z : scalar) (n_a n_b n_c : Z) :
  (0 < n_a)%Z -> (0 < n_b)%Z -> (0 < n_c)%Z ->
  mu_combined (mu_combined x y n_a n_b) z (n_a + n_b) n_c =
  mu_combined x (mu_combined y z n_b n_c) n_a (n_b + n_c).
Proof.
  intros Ha Hb Hc.
  destruct x as [p|], y as [q|], z as [r|];
    rewrite ?mu_combined_nonfinite_l, ?mu_combined_nonfinite_r;
    try reflexivity;
    try (rewrite mu_combined_finite by lia);
    rewrite ?mu_combined_nonfinite_l, ?mu_combined_nonfinite_r;
    try reflexivity.
  rewrite (mu_combined_finite q r) by lia.
  rewrite !mu_combined_finite by lia. f_equal.
  rewrite !ZtoQc_add.
  assert (ZtoQc (n_a + n_b) <> 0) by (apply ZtoQc_nonzero; lia).
  assert (ZtoQc (n_b + n_c) <> 0) by (apply ZtoQc_nonzero; lia).
  assert (ZtoQc (n_a + n_b + n_c) <> 0) by (apply ZtoQc_nonzero; lia).
  assert (ZtoQc (n_a + (n_b + n_c)) <> 0) by (apply ZtoQc_nonzero; lia).
  rewrite !ZtoQc_add in *. field. auto.
Qed.

Lemma var_combined_nonfinite_1 (vx my vy : scalar) (n_a n_b : Z) :
  var_combined NonFinite vx my vy n_a n_b = NonFinite.
Proof. apply var_combined_nonfinite. reflexivity. Qed.

Lemma var_combined_nonfinite_2 (mx my vy : scalar) (n_a n_b : Z) :
  var_combined mx NonFinite my vy n_a n_b = NonFinite.
Proof. apply var_combined_nonfinite. now destruct mx. Qed.

Lemma var_combined_nonfinite_3 (mx vx vy : scalar) (n_a n_b : Z) :
  var_combined mx vx NonFinite vy n_a n_b = NonFinite.
Proof. apply var_combined_nonfinite. now destruct mx, vx. Qed.

Lemma var_combined_nonfinite_4 (mx vx my : scalar) (n_a n_b : Z) :
  var_combined mx vx my NonFinite n_a n_b = NonFinite.
Proof. apply var_combined_nonfinite. now destruct mx, vx, my. Qed.

Ltac combine_norm :=
  repeat first
    [ rewrite mu_combined_nonfinite_l
    | rewrite mu_combined_nonfinite_r
    | rewrite var_combined_nonfinite_1
    | rewrite var_combined_nonfinite_2
    | rewrite var_combined_nonfinite_3
    | rewrite var_combined_nonfinite_4
    | rewrite mu_combined_finite by lia
    | rewrite var_combined_finite by lia; cbv zeta ].

Lemma var_combined_assoc (mx vx my vy mz vz : scalar) (n_a n_b n_c : Z) :
  (0 < n_a)%Z -> (0 < n_b)%Z -> (0 < n_c)%Z ->
  var_combined (mu_combined mx my n_a n_b) (var_combined mx vx my vy n_a n_b)
               mz vz (n_a + n_b) n_c =
  var_combined mx vx
               (mu_combined my mz n_b n_c) (var_combined my vy mz vz n_b n_c)
               n_a (n_b + n_c).
Proof.
  intros Ha Hb Hc.
  destruct mx as [p|], vx as [u|], my as [q|], vy as [w|], mz as [r|], vz as [t|];
    combine_norm; try reflexivity.
  f_equal.
  assert (N1 : ZtoQc (n_a + n_b) <> 0) by (apply ZtoQc_nonzero; lia).
  assert (N2 : ZtoQc (n_a + n_b - 1) <> 0) by (apply ZtoQc_nonzero; lia).
  assert (N3 : ZtoQc (n_b + n_c) <> 0) by (apply ZtoQc_nonzero; lia).
  assert (N4 : ZtoQc (n_b + n_c - 1) <> 0) by (apply ZtoQc_nonzero; lia).
  assert (N5 : ZtoQc (n_a + n_b + n_c) <> 0) by (apply ZtoQc_nonzero; lia).
  assert (N6 : ZtoQc (n_a + n_b + n_c - 1) <> 0) by (apply ZtoQc_nonzero; lia).
  assert (N7 : ZtoQc (n_a + (n_b + n_c)) <> 0) by (apply ZtoQc_nonzero; lia).
  assert (N8 : ZtoQc (n_a + (n_b + n_c) - 1) <> 0) by (apply ZtoQc_nonzero; lia).
  rewrite ?ZtoQc_sub, ?ZtoQc_add, ?ZtoQc_1 in *.
  field. repeat split; assumption.
Qed.

End MergeAlgebra.

(** ** Merging: vectors *)

Lemma merged_mu_comm (x y : vec) (n_a n_b : Z) :
  length x = length y -> merged_mu x y n_a n_b = merged_mu y x n_b n_a.
Proof.
  intros H. apply (nth_ext _ _ NonFinite NonFinite).
  - rewrite !length_merged_mu; congruence.
  - intros j Hj. rewrite length_merged_mu in Hj by exact H.
    rewrite !merged_mu_nth by congruence. apply mu_combined_comm.
Qed.

Lemma merged_var_comm (mx vx my vy : vec) (n_a n_b : Z) :
  length mx = length vx -> length mx = length my -> length my = length vy ->
  merged_var mx vx my vy n_a n_b = merged_var my vy mx vx n_b n_a.
Proof.
  intros H1 H2 H3. apply (nth_ext _ _ NonFinite NonFinite).
  - rewrite !length_merged_var; congruence.
  - intros j Hj. rewrite length_merged_var in Hj by assumption.
    rewrite !merged_var_nth by congruence. apply var_combined_comm.
Qed.

Lemma merged_mu_assoc (x y z : vec) (n_a n_b n_c : Z) :
  length x = length y -> length y = length z ->
  (0 < n_a)%Z -> (0 < n_b)%Z -> (0 < n_c)%Z ->
  merged_mu (merged_mu x y n_a n_b) z (n_a + n_b) n_c =
  merged_mu x (merged_mu y z n_b n_c) n_a (n_b + n_c).
Proof.
  intros H1 H2 Ha Hb Hc. apply (nth_ext _ _ NonFinite NonFinite).
  - rewrite !length_merged_mu; rewrite ?length_merged_mu; congruence.
  - intros j Hj.
    rewrite !length_merged_mu in Hj by (rewrite ?length_merged_mu; congruence).
    rewrite !merged_mu_nth by (rewrite ?length_merged_mu; congruence).
    now apply mu_combined_assoc.
Qed.

Lemma merged_var_assoc (mx vx my vy mz vz : vec) (n_a n_b n_c : Z) :
  length mx = length vx -> length mx = length my -> length my = length vy ->
  length my = length mz -> length mz = length vz ->
  (0 < n_a)%Z -> (0 < n_b)%Z -> (0 < n_c)%Z ->
  merged_var (merged_mu mx my n_a n_b) (merged_var mx vx my vy n_a n_b)
             mz vz (n_a + n_b) n_c =
  merged_var mx vx
             (merged_mu my mz n_b n_c) (merged_var my vy mz vz n_b n_c)
             n_a (n_b + n_c).
Proof.
  intros H1 H2 H3 H4 H5 Ha Hb Hc.
  assert (L1 : length (merged_mu mx my n_a n_b) = length mx)
    by now apply length_merged_mu.
  assert (L2 : length (merged_var mx vx my vy n_a n_b) = length mx)
    by now apply length_merged_var.
  assert (L3 : length (merged_mu my mz n_b n_c) = length my)
    by now apply length_merged_mu.
  assert (L4 : length (merged_var my vy mz vz n_b n_c) = length my)
    by now apply length_merged_var.
  apply (nth_ext _ _ NonFinite NonFinite).
  - rewrite !length_merged_var; congruence.
  - intros j Hj. rewrite length_merged_var in Hj by congruence.
    rewrite (merged_var_nth (merged_mu mx my n_a n_b)) by congruence.
    rewrite (merged_var_nth mx vx (merged_mu my mz n_b n_c)) by congruence.
    rewrite !merged_mu_nth by congruence.
    rewrite !merged_var_nth by congruence.
    now apply var_combined_assoc.
Qed.

(** ** Merging: distributions *)

Lemma layer_field_ok (d : dict LayerStats) (l k : string) (st : LayerStats)
  (v : vec) :
  dict_get l d = Some st -> dict_get k st = Some v -> layer_field d l k = v.
Proof.
  intros Hl Hk. unfold layer_field. rewrite (getitem2_ok _ _ _ _ Hl).
  now rewrite (getitem_ok _ _ _ Hk).
Qed.

Lemma merged_lookup (a b : VDNAGauss) (l : string) :
  dict_get l (data (merged a b)) =
  option_map (fun _ => merged_stats a b l) (dict_get l (data a)).
Proof. cbn [merged data]. apply dict_get_mapi. Qed.

Lemma keys_merged (a b : VDNAGauss) : keys (data (merged a b)) = keys (data a).
Proof. cbn [merged data]. apply keys_dict_mapi. Qed.

(** The four vectors of a layer two operands of one schema share, with
    their common length. *)
Lemma shared_layer (a b : VDNAGauss) (l : string) :
  dist_wf a -> dist_wf b -> SameSchema a b -> In l (keys (data a)) ->
  exists mu_a var_a mu_b var_b,
    dict_get l (data a) = Some [("mu", mu_a); ("var", var_a)] /\
    dict_get l (data b) = Some [("mu", mu_b); ("var", var_b)] /\
    length mu_a = length var_a /\
    length mu_a = length mu_b /\
    length mu_b = length var_b.
Proof.
  intros Ha Hb Hs Hin.
  destruct (dict_get_in_keys l (data a) Hin) as [sa Hsa].
  destruct (dict_get_in_keys l (data b) (proj1 (proj1 Hs l) Hin)) as [sb Hsb].
  destruct (dist_wf_lookup a l sa Ha Hsa) as (mu_a & var_a & -> & La).
  destruct (dist_wf_lookup b l sb Hb Hsb) as (mu_b & var_b & -> & Lb).
  assert (Hc := proj2 Hs l _ _ Hsa Hsb). cbn in Hc. injection Hc as Hc.
  exists mu_a, var_a, mu_b, var_b. auto.
Qed.

Lemma merged_stats_shared (a b : VDNAGauss) (l : string)
  (mu_a var_a mu_b var_b : vec) :
  dict_get l (data a) = Some [("mu", mu_a); ("var", var_a)] ->
  dict_get l (data b) = Some [("mu", mu_b); ("var", var_b)] ->
  merged_stats a b l =
  [("mu", merged_mu mu_a mu_b (num_images a) (num_images b));
   ("var", merged_var mu_a var_a mu_b var_b (num_images a) (num_images b))].
Proof.
  intros Ha Hb. unfold merged_stats. cbv zeta.
  rewrite (layer_field_ok (data a) l "mu" _ mu_a Ha eq_refl).
  rewrite (layer_field_ok (data a) l "var" _ var_a Ha eq_refl).
  rewrite (layer_field_ok (data b) l "mu" _ mu_b Hb eq_refl).
  rewrite (layer_field_ok (data b) l "var" _ var_b Hb eq_refl).
  reflexivity.
Qed.

Lemma merged_wf (a b : VDNAGauss) :
  dist_wf a -> dist_wf b -> SameSchema a b -> dist_wf (merged a b).
Proof.
  intros Ha Hb Hs. split.
  - rewrite keys_merged. apply Ha.
  - apply Forall_forall. intros [l st] Hin. cbn [snd].
    cbn [merged data] in Hin. unfold dict_mapi in Hin.
    apply in_map_iff in Hin as [[l' sa] [E Hin]]. cbn in E.
    injection E as -> <-.
    assert (Hk : In l (keys (data a)))
      by (change l with (fst (l, sa)); now apply in_map).
    destruct (shared_layer a b l Ha Hb Hs Hk)
      as (mu_a & var_a & mu_b & var_b & Hla & Hlb & L1 & L2 & L3).
    rewrite (merged_stats_shared a b l _ _ _ _ Hla Hlb).
    do 2 eexists. split; [reflexivity|].
    rewrite length_merged_mu, length_merged_var; congruence.
Qed.

Lemma SameSchema_sym (a b : VDNAGauss) : SameSchema a b -> SameSchema b a.
Proof.
  intros [Hk Hc]. split.
  - intros l. symmetry. apply Hk.
  - intros l sb sa Hb Ha. symmetry. eapply Hc; eauto.
Qed.

Lemma SameSchema_trans (a b c : VDNAGauss) :
  SameSchema a b -> SameSchema b c -> SameSchema a c.
Proof.
  intros [Hk1 Hc1] [Hk2 Hc2]. split.
  - intros l. rewrite Hk1. apply Hk2.
  - intros l sa sc Ha Hc.
    destruct (dict_get_in_keys l (data b)) as [sb Hb].
    { apply Hk1. eapply dict_get_keys; eauto. }
    rewrite (Hc1 l sa sb Ha Hb). eapply Hc2; eauto.
Qed.

Lemma merged_schema_l (a b : VDNAGauss) :
  dist_wf a -> dist_wf b -> SameSchema a b -> SameSchema (merged a b) a.
Proof.
  intros Ha Hb Hs. split.
  - intros l. now rewrite keys_merged.
  - intros l sm sa Hm Hsa. rewrite merged_lookup, Hsa in Hm. cbn in Hm.
    injection Hm as <-.
    destruct (shared_layer a b l Ha Hb Hs (dict_get_keys _ _ _ Hsa))
      as (mu_a & var_a & mu_b & var_b & Hla & Hlb & L1 & L2 & L3).
    rewrite (merged_stats_shared a b l _ _ _ _ Hla Hlb).
    rewrite Hla in Hsa. injection Hsa as <-.
    cbn. f_equal. now apply length_merged_mu.
Qed.

Lemma merged_stats_comm (a b : VDNAGauss) (l : string) :
  dist_wf a -> dist_wf b -> SameSchema a b -> In l (keys (data a)) ->
  merged_stats a b l = merged_stats b a l.
Proof.
  intros Ha Hb Hs Hin.
  destruct (shared_layer a b l Ha Hb Hs Hin)
    as (mu_a & var_a & mu_b & var_b & Hla & Hlb & L1 & L2 & L3).
  rewrite (merged_stats_shared a b l _ _ _ _ Hla Hlb).
  rewrite (merged_stats_shared b a l _ _ _ _ Hlb Hla).
  rewrite (merged_mu_comm mu_a mu_b) by exact L2.
  now rewrite (merged_var_comm mu_a var_a mu_b var_b) by assumption.
Qed.

Lemma merged_stats_assoc (a b c : VDNAGauss) (l : string) :
  dist_wf a -> dist_wf b -> dist_wf c ->
  SameSchema a b -> SameSchema b c ->
  (0 < num_images a)%Z -> (0 < num_images b)%Z -> (0 < num_images c)%Z ->
  In l (keys (data a)) ->
  merged_stats (merged a b) c l = merged_stats a (merged b c) l.
Proof.
  intros Ha Hb Hc Hab Hbc Na Nb Nc Hin.
  destruct (shared_layer a b l Ha Hb Hab Hin)
    as (mu_a & var_a & mu_b & var_b & Hla & Hlb & L1 & L2 & L3).
  destruct (shared_layer b c l Hb Hc Hbc (proj1 (proj1 Hab l) Hin))
    as (mu_b' & var_b' & mu_c & var_c & Hlb' & Hlc & _ & L4 & L5).
  rewrite Hlb in Hlb'. injection Hlb' as <- <-.
  assert (Hlab : dict_get l (data (merged a b)) =
                 Some [("mu", merged_mu mu_a mu_b (num_images a) (num_images b));
                       ("var", merged_var mu_a var_a mu_b var_b
                                          (num_images a) (num_images b))]).
  { rewrite merged_lookup, Hla. cbn [option_map].
    now rewrite (merged_stats_shared a b l _ _ _ _ Hla Hlb). }
  assert (Hlbc : dict_get l (data (merged b c)) =
                 Some [("mu", merged_mu mu_b mu_c (num_images b) (num_images c));
                       ("var", merged_var mu_b var_b mu_c var_c
                                          (num_images b) (num_images c))]).
  { rewrite merged_lookup, Hlb. cbn [option_map].
    now rewrite (merged_stats_shared b c l _ _ _ _ Hlb Hlc). }
  rewrite (merged_stats_shared (merged a b) c l _ _ _ _ Hlab Hlc).
  rewrite (merged_stats_shared a (merged b c) l _ _ _ _ Hla Hlbc).
  cbn [merged num_images].
  rewrite merged_mu_assoc by assumption.
  now rewrite merged_var_assoc by assumption.
Qed.

(** C7: on well-formed distributions of one schema, [a + b] and [b + a]
    succeed with the same sample count and the same [mu] and [var] for every
    layer; with positive sample counts, [(a + b) + c] and [a + (b + c)]
    succeed with the same sample count and the same [mu] and [var] for
    every layer. *)
Theorem add_commutative_associative (a b c : VDNAGauss) :
  dist_wf a -> dist_wf b -> dist_wf c ->
  SameSchema a b -> SameSchema b c ->
  (0 < num_images a)%Z -> (0 < num_images b)%Z -> (0 < num_images c)%Z ->
  (exists ab ba,
      __add__ a b = OK ab /\ __add__ b a = OK ba /\
      num_images ab = num_images ba /\
      forall l k, getitem2 (data ab) l k = getitem2 (data ba) l k) /\
  (exists ab bc ab_c a_bc,
      __add__ a b = OK ab /\ __add__ b c = OK bc /\
      __add__ ab c = OK ab_c /\ __add__ a bc = OK a_bc /\
      num_images ab_c = num_images a_bc /\
      forall l k, getitem2 (data ab_c) l k = getitem2 (data a_bc) l k).
Proof.
  intros Ha Hb Hc Hab Hbc Na Nb Nc.
  assert (Hba := SameSchema_sym a b Hab).
  split.
  - exists (merged a b), (merged b a).
    rewrite (add_ok a b Ha Hb Hab), (add_ok b a Hb Ha Hba).
    repeat split.
    + cbn [merged num_images]. apply Z.add_comm.
    + intros l k. unfold getitem2, getitem. rewrite !merged_lookup.
      destruct (dict_get l (data a)) as [sa|] eqn:Ea.
      * assert (Hin : In l (keys (data a))) by (eapply dict_get_keys; eauto).
        destruct (dict_get_in_keys l (data b) (proj1 (proj1 Hab l) Hin))
          as [sb ->].
        cbn [option_map rbind]. now rewrite merged_stats_comm.
      * destruct (dict_get l (data b)) as [sb|] eqn:Eb; [|reflexivity].
        apply dict_get_keys, (proj1 Hab l), dict_get_in_keys in Eb as [sa' Ea'].
        congruence.
  - assert (Wab := merged_wf a b Ha Hb Hab).
    assert (Wbc := merged_wf b c Hb Hc Hbc).
    assert (Sab_c : SameSchema (merged a b) c).
    { eapply SameSchema_trans; [apply merged_schema_l; assumption|].
      eapply SameSchema_trans; eassumption. }
    assert (Sa_bc : SameSchema a (merged b c)).
    { eapply SameSchema_trans; [eassumption|].
      apply SameSchema_sym, merged_schema_l; assumption. }
    exists (merged a b), (merged b c),
      (merged (merged a b) c), (merged a (merged b c)).
    rewrite (add_ok a b Ha Hb Hab), (add_ok b c Hb Hc Hbc).
    rewrite (add_ok (merged a b) c Wab Hc Sab_c).
    rewrite (add_ok a (merged b c) Ha Wbc Sa_bc).
    repeat split.
    + cbn [merged num_images]. symmetry. apply Z.add_assoc.
    + intros l k. unfold getitem2, getitem.
      rewrite (merged_lookup (merged a b) c), (merged_lookup a (merged b c)).
      rewrite (merged_lookup a b).
      destruct (dict_get l (data a)) as [sa|] eqn:Ea; [|reflexivity].
      cbn [option_map rbind].
      rewrite merged_stats_assoc; auto. eapply dict_get_keys; eauto.
Qed.

Lemma one_neuron_wf (mu var n : Z) : dist_wf (one_neuron mu var n).
Proof.
  split.
  - apply NoDup_keys_one.
  - repeat constructor. cbn. do 2 eexists. split; reflexivity.
Qed.

Lemma one_neuron_schema (mu var n mu' var' n' : Z) :
  SameSchema (one_neuron mu var n) (one_neuron mu' var' n').
Proof. apply same_schema_iff. reflexivity. Qed.

Lemma add_commutative_associative_witness :
  (exists ab ba,
      __add__ (one_neuron 1 0 1) (one_neuron 3 0 1) = OK ab /\
      __add__ (one_neuron 3 0 1) (one_neuron 1 0 1) = OK ba /\
      num_images ab = num_images ba /\
      forall l k, getitem2 (data ab) l k = getitem2 (data ba) l k) /\
  (exists ab bc ab_c a_bc,
      __add__ (one_neuron 1 0 1) (one_neuron 3 0 1) = OK ab /\
      __add__ (one_neuron 3 0 1) (one_neuron 5 2 3) = OK bc /\
      __add__ ab (one_neuron 5 2 3) = OK ab_c /\
      __add__ (one_neuron 1 0 1) bc = OK a_bc /\
      num_images ab_c = num_images a_bc /\
      forall l k, getitem2 (data ab_c) l k = getitem2 (data a_bc) l k).
Proof.
  apply (add_commutative_associative
           (one_neuron 1 0 1) (one_neuron 3 0 1) (one_neuron 5 2 3)).
  - apply one_neuron_wf.
  - apply one_neuron_wf.
  - apply one_neuron_wf.
  - apply one_neuron_schema.
  - apply one_neuron_schema.
  - reflexivity.
  - reflexivity.
  - reflexivity.
Defined.

Lemma add_schema_mismatch_witness :
  __add__ (one_neuron 1 0 1) two_layers = Raise SchemaMismatchError /\
  exists m, __add__ (one_neuron 1 0 1) (one_neuron 3 0 1) = OK m.
Proof.
  split.
  - apply (proj1 (add_schema_mismatch (one_neuron 1 0 1) two_layers)).
    intros Hs. apply same_schema_iff in Hs. discriminate Hs.
  - apply (proj2 (proj2 (add_schema_mismatch (one_neuron 1 0 1)
                                              (one_neuron 3 0 1)))).
    + apply one_neuron_wf.
    + apply one_neuron_wf.
    + apply one_neuron_schema.
Defined.

(** ** Merging two fits against the fit of the union *)

Lemma neuron_samples_index (t : Tensor) (j : nat) :
  (j < prod_shape (feat_shape t))%nat ->
  neuron_samples t j =
  map (fun i => nth (i * prod_shape (feat_shape t) + j) (storage t) NonFinite)
      (seq 0 (batch t)).
Proof.
  intros Hj. unfold neuron_samples. apply map_ext. intros i.
  now apply sample_nth.
Qed.

Lemma seq_from (a n : nat) : seq a n = map (Nat.add a) (seq 0 n).
Proof.
  revert a. induction n as [|n IH]; intros a; [reflexivity|].
  cbn [seq map]. rewrite Nat.add_0_r. f_equal.
  rewrite (IH (S a)), (IH 1%nat), map_map. apply map_ext. intros i. lia.
Qed.

(** The samples of a neuron over the union: those of the first batch, then
    those of the second. *)
Lemma neuron_samples_cat (ta tb : Tensor) (j : nat) :
  tensor_wf ta ->
  prod_shape (feat_shape ta) = prod_shape (feat_shape tb) ->
  (j < prod_shape (feat_shape ta))%nat ->
  neuron_samples (cat_batch ta tb) j = neuron_samples ta j ++ neuron_samples tb j.
Proof.
  intros Hwf Hm Hj. unfold tensor_wf, numel in Hwf.
  rewrite (neuron_samples_index (cat_batch ta tb)) by exact Hj.
  rewrite (neuron_samples_index ta) by exact Hj.
  rewrite (neuron_samples_index tb) by (rewrite <- Hm; exact Hj).
  cbn [cat_batch batch feat_shape storage]. rewrite <- Hm.
  set (m := prod_shape (feat_shape ta)) in *.
  rewrite seq_app, map_app. cbn [Nat.add]. f_equal.
  - apply map_ext_in. intros i Hi. apply in_seq in Hi.
    apply app_nth1. rewrite Hwf. nia.
  - rewrite (seq_from (batch ta)), map_map. apply map_ext. intros i.
    rewrite app_nth2 by (rewrite Hwf; nia). f_equal. rewrite Hwf. nia.
Qed.

Lemma map_finite_part (xs : list scalar) :
  Forall (fun x => is_finite x = true) xs -> map Finite (map finite_part xs) = xs.
Proof.
  induction 1 as [|x xs Hx _ IH]; [reflexivity|].
  cbn [map]. rewrite IH. destruct x; [reflexivity | discriminate].
Qed.

Lemma neuron_samples_finite (t : Tensor) (j : nat) :
  tensor_wf t -> all_finite t ->
  (j < prod_shape (feat_shape t))%nat ->
  exists qs, neuron_samples t j = map Finite qs /\ length qs = batch t.
Proof.
  intros Hwf Hfin Hj. exists (map finite_part (neuron_samples t j)). split.
  - symmetry. apply map_finite_part.
    rewrite neuron_samples_index by exact Hj.
    apply Forall_forall. intros x Hx. apply in_map_iff in Hx as [i [<- Hi]].
    apply in_seq in Hi. unfold all_finite in Hfin.
    rewrite Forall_forall in Hfin. apply Hfin. apply nth_In.
    unfold tensor_wf, numel in Hwf. rewrite Hwf. nia.
  - now rewrite length_map, length_neuron_samples.
Qed.

Section PooledStatistics.
Local Open Scope Qc_scope.

Lemma mean_finite (qs : list Qc) :
  qs <> [] -> mean (map Finite qs) = Finite (qsum qs / qlen qs).
Proof.
  intros Hne. unfold mean. rewrite ssum_finite, length_map. unfold sdivz.
  destruct (Z.of_nat (length qs) =? 0)%Z eqn:E; [|reflexivity].
  apply Z.eqb_eq in E. destruct qs; [contradiction | discriminate].
Qed.

Lemma sum_sq_dev_finite (qs : list Qc) :
  qs <> [] ->
  sum_sq_dev (map Finite qs) = Finite (qdev (qsum qs / qlen qs) qs).
Proof.
  intros Hne. unfold sum_sq_dev. rewrite (mean_finite qs Hne).
  rewrite map_map. unfold qdev. rewrite <- ssum_finite, map_map.
  reflexivity.
Qed.

Lemma unbiased_var_finite (qs : list Qc) :
  (2 <= length qs)%nat ->
  unbiased_var (map Finite qs) =
  Finite (qdev (qsum qs / qlen qs) qs / (qlen qs - 1)).
Proof.
  intros Hn. unfold unbiased_var.
  rewrite sum_sq_dev_finite by (destruct qs; [cbn in Hn; lia | discriminate]).
  rewrite length_map. unfold sdivz.
  destruct (Z.of_nat (length qs) - 1 =? 0)%Z eqn:E;
    [apply Z.eqb_eq in E; lia|].
  unfold qlen. now rewrite ZtoQc_sub, ZtoQc_1.
Qed.

Lemma qlen_nonzero (qs : list Qc) : (1 <= length qs)%nat -> qlen qs <> 0.
Proof. intros H. apply ZtoQc_nonzero. lia. Qed.

Lemma qlen_pred_nonzero (qs : list Qc) :
  (2 <= length qs)%nat -> qlen qs - 1 <> 0.
Proof.
  intros H. unfold qlen. rewrite <- ZtoQc_1, <- ZtoQc_sub.
  apply ZtoQc_nonzero. lia.
Qed.

(** The combined mean is the mean of the union. *)
Lemma mu_combined_pooled (xs ys : list Qc) :
  (1 <= length xs)%nat -> (1 <= length ys)%nat ->
  mu_combined (mean (map Finite xs)) (mean (map Finite ys))
              (Z.of_nat (length xs)) (Z.of_nat (length ys))
  = mean (map Finite (xs ++ ys)).
Proof.
  intros Hx Hy.
  rewrite !mean_finite
    by (intros E; apply (f_equal (@length Qc)) in E;
        rewrite ?length_app in E; cbn in E; lia).
  rewrite mu_combined_finite by lia. f_equal.
  rewrite qsum_app, qlen_app. fold (qlen xs) (qlen ys).
  assert (Nx := qlen_nonzero xs Hx). assert (Ny := qlen_nonzero ys Hy).
  assert (Nxy : qlen xs + qlen ys <> 0).
  { rewrite <- qlen_app. apply qlen_nonzero. rewrite length_app. lia. }
  field. auto.
Qed.

(** The combined variance is the unbiased variance of the union. *)
Lemma var_combined_pooled (xs ys : list Qc) :
  (2 <= length xs)%nat -> (2 <= length ys)%nat ->
  var_combined (mean (map Finite xs)) (unbiased_var (map Finite xs))
               (mean (map Finite ys)) (unbiased_var (map Finite ys))
               (Z.of_nat (length xs)) (Z.of_nat (length ys))
  = unbiased_var (map Finite (xs ++ ys)).
Proof.
  intros Hx Hy.
  rewrite !unbiased_var_finite by (rewrite ?length_app; lia).
  rewrite !mean_finite
    by (intros E; apply (f_equal (@length Qc)) in E; cbn in E; lia).
  rewrite var_combined_finite by lia. cbv zeta. f_equal.
  fold (qlen xs) (qlen ys).
  assert (Nx := qlen_nonzero xs ltac:(lia)).
  assert (Ny := qlen_nonzero ys ltac:(lia)).
  assert (Px := qlen_pred_nonzero xs Hx).
  assert (Py := qlen_pred_nonzero ys Hy).
  assert (Nxy : qlen xs + qlen ys <> 0).
  { rewrite <- qlen_app. apply qlen_nonzero. rewrite length_app. lia. }
  assert (Pxy : qlen xs + qlen ys - 1 <> 0).
  { rewrite <- qlen_app. apply qlen_pred_nonzero. rewrite length_app. lia. }
  rewrite qdev_app, qsum_app, qlen_app.
  set (m := (qsum xs + qsum ys) / (qlen xs + qlen ys)).
  rewrite (qdev_shift m (qsum xs / qlen xs) xs) by (field; exact Nx).
  rewrite (qdev_shift m (qsum ys / qlen ys) ys) by (field; exact Ny).
  assert (Em : (qsum xs / qlen xs * qlen xs + qsum ys / qlen ys * qlen ys)
               / (qlen xs + qlen ys) = m).
  { unfold m. field. auto. }
  rewrite Em. field. auto.
Qed.

End PooledStatistics.

Lemma merged_mu_pooled (ta tb : Tensor) :
  tensor_wf ta -> tensor_wf tb -> all_finite ta -> all_finite tb ->
  (1 <= batch ta)%nat -> (1 <= batch tb)%nat ->
  prod_shape (feat_shape ta) = prod_shape (feat_shape tb) ->
  merged_mu (torch_mean_dim0 (flat ta)) (torch_mean_dim0 (flat tb))
            (Z.of_nat (batch ta)) (Z.of_nat (batch tb))
  = torch_mean_dim0 (flat (cat_batch ta tb)).
Proof.
  intros Wa Wb Fa Fb Na Nb Hm.
  assert (La : length (torch_mean_dim0 (flat ta)) = prod_shape (feat_shape ta))
    by apply length_torch_mean.
  assert (Lb : length (torch_mean_dim0 (flat tb)) = prod_shape (feat_shape ta))
    by (rewrite Hm; apply length_torch_mean).
  apply (nth_ext _ _ NonFinite NonFinite).
  - rewrite length_merged_mu by congruence. rewrite La.
    symmetry. apply length_torch_mean.
  - intros j Hj. rewrite length_merged_mu, La in Hj by congruence.
    rewrite merged_mu_nth by congruence.
    rewrite (torch_mean_nth ta j Hj).
    rewrite (torch_mean_nth tb j) by (rewrite <- Hm; exact Hj).
    rewrite (torch_mean_nth (cat_batch ta tb) j) by exact Hj.
    rewrite (neuron_samples_cat ta tb j Wa Hm Hj).
    destruct (neuron_samples_finite ta j Wa Fa Hj) as (xs & -> & Lx).
    destruct (neuron_samples_finite tb j Wb Fb) as (ys & -> & Ly);
      [rewrite <- Hm; exact Hj|].
    rewrite <- Lx, <- Ly, <- map_app.
    apply mu_combined_pooled; lia.
Qed.

Lemma merged_var_pooled (ta tb : Tensor) :
  tensor_wf ta -> tensor_wf tb -> all_finite ta -> all_finite tb ->
  (2 <= batch ta)%nat -> (2 <= batch tb)%nat ->
  prod_shape (feat_shape ta) = prod_shape (feat_shape tb) ->
  merged_var (torch_mean_dim0 (flat ta)) (torch_var_dim0 (flat ta) 1)
             (torch_mean_dim0 (flat tb)) (torch_var_dim0 (flat tb) 1)
             (Z.of_nat (batch ta)) (Z.of_nat (batch tb))
  = torch_var_dim0 (flat (cat_batch ta tb)) 1.
Proof.
  intros Wa Wb Fa Fb Na Nb Hm.
  assert (La : length (torch_mean_dim0 (flat ta)) = prod_shape (feat_shape ta))
    by apply length_torch_mean.
  assert (Lb : length (torch_mean_dim0 (flat tb)) = prod_shape (feat_shape ta))
    by (rewrite Hm; apply length_torch_mean).
  assert (Va : length (torch_var_dim0 (flat ta) 1) = prod_shape (feat_shape ta))
    by apply length_torch_var.
  assert (Vb : length (torch_var_dim0 (flat tb) 1) = prod_shape (feat_shape ta))
    by (rewrite Hm; apply length_torch_var).
  apply (nth_ext _ _ NonFinite NonFinite).
  - rewrite length_merged_var by congruence. rewrite La.
    symmetry. apply length_torch_var.
  - intros j Hj. rewrite length_merged_var, La in Hj by congruence.
    rewrite merged_var_nth by congruence.
    rewrite (torch_mean_nth ta j Hj).
    rewrite (torch_mean_nth tb j) by (rewrite <- Hm; exact Hj).
    rewrite (torch_var_nth ta j) by (try lia; exact Hj).
    rewrite (torch_var_nth tb j) by (try lia; rewrite <- Hm; exact Hj).
    rewrite (torch_var_nth (cat_batch ta tb) j)
      by (cbn [cat_batch batch feat_shape]; try lia; exact Hj).
    rewrite (neuron_samples_cat ta tb j Wa Hm Hj).
    destruct (neuron_samples_finite ta j Wa Fa Hj) as (xs & -> & Lx).
    destruct (neuron_samples_finite tb j Wb Fb) as (ys & -> & Ly);
      [rewrite <- Hm; exact Hj|].
    rewrite <- Lx, <- Ly, <- map_app.
    apply var_combined_pooled; lia.
Qed.

Lemma fitted_ok (fd : dict Tensor) (n : Z) :
  NoDup (keys fd) ->
  (forall l t, In (l, t) fd -> batch t <> 0%nat) ->
  fst (fit_distribution fd fresh) = OK tt /\
  data (fitted fd n) = dict_mapi (fun _ => gaussian_stats) fd.
Proof.
  intros Hnd Hne. unfold fitted. cbn [data].
  rewrite (fit_distribution_run fd fresh Hnd).
  rewrite (has_empty_batch_false fd Hne).
  rewrite (before_first_empty_all fd (has_empty_batch_false fd Hne)).
  split; reflexivity.
Qed.

Lemma fitted_lookup (fd : dict Tensor) (n : Z) (l : string) (t : Tensor) :
  NoDup (keys fd) ->
  (forall l t, In (l, t) fd -> batch t <> 0%nat) ->
  In (l, t) fd ->
  dict_get l (data (fitted fd n)) = Some (gaussian_stats t).
Proof.
  intros Hnd Hne Hin. rewrite (proj2 (fitted_ok fd n Hnd Hne)).
  now rewrite dict_get_mapi, (dict_get_in l t fd Hnd Hin).
Qed.

Lemma fitted_wf (fd : dict Tensor) (n : Z) :
  NoDup (keys fd) ->
  (forall l t, In (l, t) fd -> batch t <> 0%nat) ->
  dist_wf (fitted fd n).
Proof.
  intros Hnd Hne. unfold dist_wf. rewrite (proj2 (fitted_ok fd n Hnd Hne)).
  split.
  - now rewrite keys_dict_mapi.
  - apply Forall_forall. intros [l st] Hin. unfold dict_mapi in Hin.
    apply in_map_iff in Hin as [[l' t] [E _]]. cbn in E. injection E as _ <-.
    cbn [snd]. destruct (gaussian_stats_shape t) as (mu & var & -> & L1 & L2).
    exists mu, var. split; [reflexivity | congruence].
Qed.

Lemma neuron_count_gaussian (t : Tensor) :
  neuron_count (gaussian_stats t) = Some (prod_shape (feat_shape t)).
Proof.
  unfold neuron_count, gaussian_stats.
  cbn [dict_get String.eqb Ascii.eqb Bool.eqb option_map]. f_equal.
  apply length_torch_mean.
Qed.

Lemma fitted_schema (fa fb : dict Tensor) (n_a n_b : Z) :
  NoDup (keys fa) -> NoDup (keys fb) ->
  (forall l t, In (l, t) fa -> batch t <> 0%nat) ->
  (forall l t, In (l, t) fb -> batch t <> 0%nat) ->
  (forall l, In l (keys fa) <-> In l (keys fb)) ->
  (forall l ta tb, In (l, ta) fa -> In (l, tb) fb ->
                   prod_shape (feat_shape ta) = prod_shape (feat_shape tb)) ->
  SameSchema (fitted fa n_a) (fitted fb n_b).
Proof.
  intros Da Db Na Nb Hk Hm. unfold SameSchema.
  rewrite (proj2 (fitted_ok fa n_a Da Na)), (proj2 (fitted_ok fb n_b Db Nb)).
  rewrite !keys_dict_mapi. split; [exact Hk|].
  intros l sa sb. rewrite !dict_get_mapi.
  destruct (dict_get l fa) as [ta|] eqn:Ea; [|discriminate].
  destruct (dict_get l fb) as [tb|] eqn:Eb; [|discriminate].
  cbn [option_map]. intros [= <-] [= <-].
  rewrite !neuron_count_gaussian. f_equal.
  eapply Hm; eapply dict_get_some_in; eauto.
Qed.

Lemma concat_features_in (fa fb : dict Tensor) (l : string) (t : Tensor) :
  NoDup (keys fb) ->
  (forall l, In l (keys fa) -> In l (keys fb)) ->
  In (l, t) (concat_features fa fb) ->
  exists ta tb, In (l, ta) fa /\ In (l, tb) fb /\ t = cat_batch ta tb.
Proof.
  intros Db Hk Hin. unfold concat_features, dict_mapi in Hin.
  apply in_map_iff in Hin as [[l' ta] [E Hin]]. cbn [fst snd] in E.
  injection E as -> E.
  assert (Hl : In l (keys fb)).
  { apply Hk. change l with (fst (l, ta)). now apply in_map. }
  apply dict_get_in_keys in Hl as [tb Hb]. rewrite Hb in E.
  exists ta, tb. repeat split; auto. now apply dict_get_some_in.
Qed.

Lemma concat_features_lookup (fa fb : dict Tensor) (l : string)
  (ta tb : Tensor) :
  NoDup (keys fa) -> NoDup (keys fb) ->
  In (l, ta) fa -> In (l, tb) fb ->
  In (l, cat_batch ta tb) (concat_features fa fb).
Proof.
  intros Da Db Ha Hb. unfold concat_features, dict_mapi.
  apply in_map_iff. exists (l, ta). split; [|exact Ha]. cbn [fst snd].
  now rewrite (dict_get_in l tb fb Db Hb).
Qed.

(** C1: two feature sets over the same layers and neuron counts, with
    [n_a >= 2] and [n_b >= 2] samples, are fitted separately and merged.
    The merge succeeds; for every layer and neuron its [mu] and [var] are
    given by the combination formulas, and they are the [mu] and [var] of a
    fit on the concatenation of the two sample sets: the mean and the
    unbiased sample variance of the pooled samples. *)
Theorem add_equals_joint_fit (fa fb : dict Tensor) (n_a n_b : nat) :
  NoDup (keys fa) -> NoDup (keys fb) ->
  (forall l, In l (keys fa) <-> In l (keys fb)) ->
  (2 <= n_a)%nat -> (2 <= n_b)%nat ->
  (forall l ta, In (l, ta) fa ->
                batch ta = n_a /\ tensor_wf ta /\ all_finite ta) ->
  (forall l tb, In (l, tb) fb ->
                batch tb = n_b /\ tensor_wf tb /\ all_finite tb) ->
  (forall l ta tb, In (l, ta) fa -> In (l, tb) fb ->
                   prod_shape (feat_shape ta) = prod_shape (feat_shape tb)) ->
  let a := fitted fa (Z.of_nat n_a) in
  let b := fitted fb (Z.of_nat n_b) in
  let c := fitted (concat_features fa fb) (Z.of_nat (n_a + n_b)) in
  fst (fit_distribution fa fresh) = OK tt /\
  fst (fit_distribution fb fresh) = OK tt /\
  fst (fit_distribution (concat_features fa fb) fresh) = OK tt /\
  exists m,
    __add__ a b = OK m /\
    num_images m = num_images c /\
    forall l ta tb, In (l, ta) fa -> In (l, tb) fb ->
      exists mu var,
        getitem2 (data m) l "mu" = OK mu /\
        getitem2 (data m) l "var" = OK var /\
        getitem2 (data c) l "mu" = OK mu /\
        getitem2 (data c) l "var" = OK var /\
        length mu = prod_shape (feat_shape ta) /\
        length var = prod_shape (feat_shape ta) /\
        forall j, (j < prod_shape (feat_shape ta))%nat ->
          let mu_a := nth j (layer_field (data a) l "mu") NonFinite in
          let var_a := nth j (layer_field (data a) l "var") NonFinite in
          let mu_b := nth j (layer_field (data b) l "mu") NonFinite in
          let var_b := nth j (layer_field (data b) l "var") NonFinite in
          nth j mu NonFinite =
            mu_combined mu_a mu_b (Z.of_nat n_a) (Z.of_nat n_b) /\
          nth j var NonFinite =
            var_combined mu_a var_a mu_b var_b (Z.of_nat n_a) (Z.of_nat n_b) /\
          nth j mu NonFinite = mean (neuron_samples (cat_batch ta tb) j) /\
          nth j var NonFinite =
            unbiased_var (neuron_samples (cat_batch ta tb) j).
Proof.
  intros Da Db Hk Na Nb Ha Hb Hm a b c.
  assert (Ea : forall l t, In (l, t) fa -> batch t <> 0%nat).
  { intros l t Hin. destruct (Ha l t Hin) as [-> _]. lia. }
  assert (Eb : forall l t, In (l, t) fb -> batch t <> 0%nat).
  { intros l t Hin. destruct (Hb l t Hin) as [-> _]. lia. }
  assert (Dc : NoDup (keys (concat_features fa fb))).
  { unfold concat_features. now rewrite keys_dict_mapi. }
  assert (Ec : forall l t, In (l, t) (concat_features fa fb) -> batch t <> 0%nat).
  { intros l t Hin.
    apply concat_features_in in Hin as (ta & tb & Hta & _ & ->);
      [|exact Db|apply Hk].
    cbn [cat_batch batch]. specialize (Ea l ta Hta). lia. }
  split; [apply (fitted_ok fa 0 Da Ea)|].
  split; [apply (fitted_ok fb 0 Db Eb)|].
  split; [apply (fitted_ok _ 0 Dc Ec)|].
  assert (Wa : dist_wf a) by now apply fitted_wf.
  assert (Wb : dist_wf b) by now apply fitted_wf.
  assert (Hs : SameSchema a b) by now apply fitted_schema.
  exists (merged a b). split; [now apply add_ok|].
  split; [cbn; lia|].
  intros l ta tb Hta Htb.
  destruct (Ha l ta Hta) as (Bta & Wta & Fta).
  destruct (Hb l tb Htb) as (Btb & Wtb & Ftb).
  assert (Hmm := Hm l ta tb Hta Htb).
  assert (Ga : gaussian_stats ta =
               [("mu", torch_mean_dim0 (flat ta));
                ("var", torch_var_dim0 (flat ta) 1)]).
  { unfold gaussian_stats.
    destruct (1 <? batch ta)%nat eqn:E; [reflexivity|].
    apply Nat.ltb_ge in E. lia. }
  assert (Gb : gaussian_stats tb =
               [("mu", torch_mean_dim0 (flat tb));
                ("var", torch_var_dim0 (flat tb) 1)]).
  { unfold gaussian_stats.
    destruct (1 <? batch tb)%nat eqn:E; [reflexivity|].
    apply Nat.ltb_ge in E. lia. }
  assert (Gc : gaussian_stats (cat_batch ta tb) =
               [("mu", torch_mean_dim0 (flat (cat_batch ta tb)));
                ("var", torch_var_dim0 (flat (cat_batch ta tb)) 1)]).
  { unfold gaussian_stats.
    destruct (1 <? batch (cat_batch ta tb))%nat eqn:E; [reflexivity|].
    apply Nat.ltb_ge in E. cbn [cat_batch batch] in E. lia. }
  assert (La : dict_get l (data a) = Some (gaussian_stats ta))
    by now apply fitted_lookup.
  assert (Lb : dict_get l (data b) = Some (gaussian_stats tb))
    by now apply fitted_lookup.
  assert (Lc : dict_get l (data c) = Some (gaussian_stats (cat_batch ta tb))).
  { apply fitted_lookup; auto. now apply concat_features_lookup. }
  rewrite Ga in La. rewrite Gb in Lb. rewrite Gc in Lc.
  assert (Lm : dict_get l (data (merged a b)) = Some (merged_stats a b l)).
  { rewrite merged_lookup, La. reflexivity. }
  rewrite (merged_stats_shared a b l _ _ _ _ La Lb) in Lm.
  change (num_images a) with (Z.of_nat n_a) in Lm.
  change (num_images b) with (Z.of_nat n_b) in Lm.
  assert (Pmu := merged_mu_pooled ta tb Wta Wtb Fta Ftb
                   ltac:(lia) ltac:(lia) Hmm).
  assert (Pvar := merged_var_pooled ta tb Wta Wtb Fta Ftb
                    ltac:(lia) ltac:(lia) Hmm).
  rewrite Bta, Btb in Pmu, Pvar.
  exists (torch_mean_dim0 (flat (cat_batch ta tb))),
    (torch_var_dim0 (flat (cat_batch ta tb)) 1).
  rewrite !(getitem2_ok _ _ _ _ Lm), !(getitem2_ok _ _ _ _ Lc).
  rewrite Pmu, Pvar.
  repeat split; try reflexivity.
  - apply length_torch_mean.
  - apply length_torch_var.
  - rewrite (layer_field_ok _ l "mu" _ _ La eq_refl).
    rewrite (layer_field_ok _ l "mu" _ _ Lb eq_refl).
    rewrite <- Pmu. apply merged_mu_nth.
    + rewrite !length_torch_mean. exact Hmm.
    + now rewrite length_torch_mean.
  - rewrite (layer_field_ok _ l "mu" _ _ La eq_refl).
    rewrite (layer_field_ok _ l "mu" _ _ Lb eq_refl).
    rewrite (layer_field_ok _ l "var" _ _ La eq_refl).
    rewrite (layer_field_ok _ l "var" _ _ Lb eq_refl).
    rewrite <- Pvar. apply merged_var_nth.
    + now rewrite length_torch_mean, length_torch_var.
    + rewrite !length_torch_mean. exact Hmm.
    + now rewrite length_torch_mean, length_torch_var.
    + now rewrite length_torch_mean.
  - now apply (torch_mean_nth (cat_batch ta tb)).
  - apply (torch_var_nth (cat_batch ta tb)); [cbn; lia | assumption].
Qed.

Lemma zs_finite (l : list Z) : Forall (fun x => is_finite x = true) (zs l).
Proof. apply Forall_forall. intros x Hx. apply in_map_iff in Hx as [z [<- _]]. reflexivity. Qed.

Lemma add_equals_joint_fit_witness :
  let fa := [("L", ex_pair)] in
  let fb := [("L", ex_pair')] in
  let a := fitted fa 2 in
  let b := fitted fb 2 in
  let c := fitted (concat_features fa fb) 4 in
  fst (fit_distribution fa fresh) = OK tt /\
  fst (fit_distribution fb fresh) = OK tt /\
  fst (fit_distribution (concat_features fa fb) fresh) = OK tt /\
  exists m,
    __add__ a b = OK m /\
    num_images m = num_images c /\
    forall l ta tb, In (l, ta) fa -> In (l, tb) fb ->
      exists mu var,
        getitem2 (data m) l "mu" = OK mu /\
        getitem2 (data m) l "var" = OK var /\
        getitem2 (data c) l "mu" = OK mu /\
        getitem2 (data c) l "var" = OK var /\
        length mu = prod_shape (feat_shape ta) /\
        length var = prod_shape (feat_shape ta) /\
        forall j, (j < prod_shape (feat_shape ta))%nat ->
          let mu_a := nth j (layer_field (data a) l "mu") NonFinite in
          let var_a := nth j (layer_field (data a) l "var") NonFinite in
          let mu_b := nth j (layer_field (data b) l "mu") NonFinite in
          let var_b := nth j (layer_field (data b) l "var") NonFinite in
          nth j mu NonFinite = mu_combined mu_a mu_b 2 2 /\
          nth j var NonFinite = var_combined mu_a var_a mu_b var_b 2 2 /\
          nth j mu NonFinite = mean (neuron_samples (cat_batch ta tb) j) /\
          nth j var NonFinite =
            unbiased_var (neuron_samples (cat_batch ta tb) j).
Proof.
  apply (add_equals_joint_fit [("L", ex_pair)] [("L", ex_pair')] 2 2).
  - apply NoDup_keys_one.
  - apply NoDup_keys_one.
  - reflexivity.
  - lia.
  - lia.
  - intros l ta [H|[]]. injection H as <- <-.
    repeat split. apply zs_finite.
  - intros l tb [H|[]]. injection H as <- <-.
    repeat split. apply zs_finite.
  - intros l ta tb [H|[]] [H'|[]]. injection H as <- <-.
    injection H' as <-. reflexivity.
Defined.

(** ** A merge whose variance denominator is zero *)

Lemma sdivz_zero (x : scalar) : sdivz x 0 = NonFinite.
Proof. now destruct x. Qed.

Lemma merged_var_degenerate (mu_a var_a mu_b var_b : vec) (n_a n_b : Z) :
  (n_a + n_b - 1 = 0)%Z ->
  Forall (fun x => x = NonFinite) (merged_var mu_a var_a mu_b var_b n_a n_b).
Proof.
  intros H. unfold merged_var. cbv zeta. rewrite H. unfold vdivz.
  apply Forall_forall. intros x Hx. apply in_map_iff in Hx as [y [<- _]].
  apply sdivz_zero.
Qed.

(** C6 (as the code behaves): when [n_a + n_b - 1 = 0], the merge of two
    well-formed distributions of one schema does not fail.  It returns a
    distribution of sample count [1] in which, for every layer, [var] has
    one entry per neuron and every entry is non-finite: the division by
    zero is carried out. *)
Theorem add_degenerate_divides (a b : VDNAGauss) :
  dist_wf a -> dist_wf b -> SameSchema a b ->
  (num_images a + num_images b - 1 = 0)%Z ->
  exists m,
    __add__ a b = OK m /\
    num_images m = 1%Z /\
    forall l, In l (keys (data a)) ->
      exists var,
        getitem2 (data m) l "var" = OK var /\
        length var = length (layer_field (data a) l "mu") /\
        Forall (fun x => x = NonFinite) var.
Proof.
  intros Ha Hb Hs Hn. exists (merged a b).
  split; [now apply add_ok|]. split; [cbn [merged num_images]; lia|].
  intros l Hin.
  destruct (shared_layer a b l Ha Hb Hs Hin)
    as (mu_a & var_a & mu_b & var_b & Hla & Hlb & L1 & L2 & L3).
  assert (Lm : dict_get l (data (merged a b)) = Some (merged_stats a b l)).
  { rewrite merged_lookup, Hla. reflexivity. }
  rewrite (merged_stats_shared a b l _ _ _ _ Hla Hlb) in Lm.
  eexists. rewrite (getitem2_ok _ _ _ _ Lm).
  split; [reflexivity|].
  rewrite (layer_field_ok _ l "mu" _ _ Hla eq_refl).
  split.
  - now apply length_merged_var.
  - now apply merged_var_degenerate.
Qed.

Lemma add_degenerate_divides_witness :
  exists m,
    __add__ (one_neuron 1 0 1) (one_neuron 3 0 0) = OK m /\
    num_images m = 1%Z /\
    forall l, In l ["L"] ->
      exists var,
        getitem2 (data m) l "var" = OK var /\
        length var = length (layer_field (data (one_neuron 1 0 1)) l "mu") /\
        Forall (fun x => x = NonFinite) var.
Proof.
  apply (add_degenerate_divides (one_neuron 1 0 1) (one_neuron 3 0 0)).
  - apply one_neuron_wf.
  - apply one_neuron_wf.
  - apply one_neuron_schema.
  - reflexivity.
Defined.

(** C6 as the specification words it fails: with sample counts [1] and [0]
    the denominator [n_a + n_b - 1] is zero, and the merge returns a
    distribution (whose variance is not a number) instead of raising. *)
Lemma add_degenerate_returns :
  (num_images (one_neuron 1 0 1) + num_images (one_neuron 3 0 0) - 1 = 0)%Z /\
  exists m,
    __add__ (one_neuron 1 0 1) (one_neuron 3 0 0) = OK m /\
    getitem2 (data m) "L" "var" = OK [NonFinite].
Proof.
  split; [reflexivity|]. exists (merged (one_neuron 1 0 1) (one_neuron 3 0 0)).
  split.
  - apply add_ok; [apply one_neuron_wf | apply one_neuron_wf
                   | apply one_neuron_schema].
  - reflexivity.
Qed.

(** ** Saving *)

Section SaveLoad.
Variable rt : Runtime.






Lemma save_dist_data_run (path : string) (s : Interp) (z : Npz) :
  save_entries rt (data (self s)) = OK z ->
  _save_dist_data rt path s =
  (OK tt, {| self := self s; stdout := stdout s;
             disk := dict_set (with_suffix_npz rt path) z (disk s) |}).
Proof.
  intros H. unfold _save_dist_data, bind, get_self, lift. now rewrite H.
Qed.

Lemma dict_get_tabulate {V} (f : string -> V) (ls : list string) (l : string) :
  In l ls -> dict_get l (map (fun k => (k, f k)) ls) = Some (f l).
Proof.
  induction ls as [|k ls IH]; cbn; [intros []|]. intros H.
  destruct (String.eqb l k) eqn:E.
  - apply String.eqb_eq in E. now subst.
  - destruct H as [H|H]; [|now apply IH].
    subst. now rewrite String.eqb_refl in E.
Qed.


(** C8 on two layers named ["x"] and ["mu-x"]: the save stores the stray
    entry of layer ["mu-x"] over the means of layer ["x"], and the load
    fails on it. *)
Theorem save_load_prefixed_layer_fails (meta : dict string)
  (path device : string) (n : Z) :
  fst ((_save_dist_data rt path ;; _load_dist_data rt meta path device)%py
         {| self := fitted ex_clash n; stdout := []; disk := [] |})
  = Raise ValueError.
Proof.
  assert (Hz : exists z,
             save_entries rt (data (fitted ex_clash n)) = OK z /\
             npz_getitem z "mu-x" = Raise ValueError).
  { eexists. split; [vm_compute; reflexivity | reflexivity]. }
  destruct Hz as (z & Hz & Hbad).
  set (s0 := {| self := fitted ex_clash n; stdout := []; disk := [] |}).
  unfold bind at 1. rewrite (save_dist_data_run path s0 z Hz).
  unfold _load_dist_data. unfold bind at 1. unfold np_load.
  cbn [disk]. rewrite dict_get_set_eq.
  unfold bind at 1, set_data at 1. unfold bind at 1, get_self at 1.
  cbn [self with_data neurons_list fitted keys map fst ex_clash for_each].
  change (neurons_list (self s0)) with ["x"; "mu-x"]. cbn [for_each].
  unfold bind, lift, setitem_data, set_data. cbv beta iota.
  change ("mu-" ++ "x")%string with "mu-x". rewrite Hbad. reflexivity.
Qed.

End SaveLoad.


(** ** Further properties of the queries, the fit and the merge *)

Lemma tensor_index_in_range (v : vec) (i : Z) :
  (0 <= i < Z.of_nat (length v))%Z ->
  tensor_index v i = OK (nth (Z.to_nat i) v NonFinite).
Proof.
  intros [Hlo Hhi]. unfold tensor_index.
  apply Z.leb_le in Hlo. apply Z.ltb_lt in Hhi. now rewrite Hlo, Hhi.
Qed.

Lemma tensor_index_out_of_range (v : vec) (i : Z) :
  (i < - Z.of_nat (length v) \/ Z.of_nat (length v) <= i)%Z ->
  tensor_index v i = Raise IndexError.
Proof.
  intros H. unfold tensor_index.
  destruct ((0 <=? i)%Z && (i <? Z.of_nat (length v))%Z) eqn:E1.
  - apply andb_true_iff in E1 as [A B].
    apply Z.leb_le in A. apply Z.ltb_lt in B. lia.
  - destruct ((- Z.of_nat (length v) <=? i)%Z && (i <? 0)%Z) eqn:E2;
      [|reflexivity].
    apply andb_true_iff in E2 as [A B].
    apply Z.leb_le in A. apply Z.ltb_lt in B.
    apply andb_false_iff in E1 as [C|C].
    + apply Z.leb_gt in C. lia.
    + apply Z.ltb_ge in C. lia.
Qed.


(** [fit_distribution] replaces what the instance held: the statistics it
    leaves, and whether it fails, do not depend on the previous [data]. *)
Theorem fit_distribution_replaces (fd : dict Tensor) (s : Interp) :
  NoDup (keys fd) ->
  fst (fit_distribution fd s) = fst (fit_distribution fd fresh) /\
  data (self (snd (fit_distribution fd s))) =
  data (self (snd (fit_distribution fd fresh))).
Proof.
  intros Hnd. rewrite !(fit_distribution_run fd _ Hnd). split; reflexivity.
Qed.

Lemma fit_distribution_replaces_witness :
  fst (fit_distribution [("a", ex_pair)]
         {| self := one_neuron 1 0 1; stdout := []; disk := [] |})
  = fst (fit_distribution [("a", ex_pair)] fresh) /\
  data (self (snd (fit_distribution [("a", ex_pair)]
                     {| self := one_neuron 1 0 1; stdout := []; disk := [] |})))
  = data (self (snd (fit_distribution [("a", ex_pair)] fresh))).
Proof.
  apply (fit_distribution_replaces [("a", ex_pair)]
           {| self := one_neuron 1 0 1; stdout := []; disk := [] |}).
  apply NoDup_keys_one.
Defined.

(** The merge of two well-formed distributions of one schema has the sample
    count [n_a + n_b] and the layers of the left operand, in its order. *)
Theorem add_count_and_layers (a b : VDNAGauss) :
  dist_wf a -> dist_wf b -> SameSchema a b ->
  exists m,
    __add__ a b = OK m /\
    num_images m = (num_images a + num_images b)%Z /\
    keys (data m) = keys (data a).
Proof.
  intros Ha Hb Hs. exists (merged a b). split; [now apply add_ok|].
  split; [reflexivity | apply keys_merged].
Qed.

Lemma add_count_and_layers_witness :
  exists m,
    __add__ (one_neuron 1 0 1) (one_neuron 3 0 1) = OK m /\
    num_images m = 2%Z /\
    keys (data m) = ["L"].
Proof.
  apply (add_count_and_layers (one_neuron 1 0 1) (one_neuron 3 0 1)).
  - apply one_neuron_wf.
  - apply one_neuron_wf.
  - apply one_neuron_schema.
Defined.

(** [get_all_neurons_in_layer_dist] returns the [mu] and [var] of a layer
    the distribution holds, and raises [KeyError] for any other layer. *)
Theorem get_all_neurons_in_layer_dist_cases (v : VDNAGauss) (layer : string) :
  (dict_get layer (data v) = None ->
   get_all_neurons_in_layer_dist v layer = Raise KeyError) /\
  (forall mu var,
      dict_get layer (data v) = Some [("mu", mu); ("var", var)] ->
      get_all_neurons_in_layer_dist v layer = OK [("mu", mu); ("var", var)]).
Proof.
  split.
  - intros H. unfold get_all_neurons_in_layer_dist, getitem. now rewrite H.
  - intros mu var H. unfold get_all_neurons_in_layer_dist.
    now rewrite (getitem_ok _ _ _ H).
Qed.

(** The example of the specification: merging [mu = 1, var = 0, n = 1] with
    [mu = 3, var = 0, n = 1] gives [mu = 2, var = 2, n = 2]. *)
Theorem add_two_singletons :
  exists m,
    __add__ (one_neuron 1 0 1) (one_neuron 3 0 1) = OK m /\
    num_images m = 2%Z /\
    getitem2 (data m) "L" "mu" = OK (zs [2%Z]) /\
    getitem2 (data m) "L" "var" = OK (zs [2%Z]).
Proof.
  exists (merged (one_neuron 1 0 1) (one_neuron 3 0 1)). split.
  - apply add_ok; [apply one_neuron_wf | apply one_neuron_wf
                   | apply one_neuron_schema].
  - split; [reflexivity|].
    split; cbn; do 3 f_equal; apply Qc_is_canon; reflexivity.
Qed.

(* ================================================================= *)
(** * Further properties of the code *)

(** ** Order on the rationals *)

Section QcOrder.
Local Open Scope Qc_scope.

Lemma this_plus (x y : Qc) : (this (x + y) == this x + this y)%Q.
Proof. unfold Qcplus, Q2Qc. cbn [this]. apply Qred_correct. Qed.


Lemma this_opp (x : Qc) : (this (- x) == - this x)%Q.
Proof. unfold Qcopp, Q2Qc. cbn [this]. apply Qred_correct. Qed.

Lemma this_minus (x y : Qc) : (this (x - y) == this x - this y)%Q.
Proof. unfold Qcminus. rewrite this_plus, this_opp. reflexivity. Qed.












End QcOrder.

(** ** The invariant of the statistics *)







Section CombinedOrder.
Local Open Scope Qc_scope.



End CombinedOrder.











(** ** Merging fits of any size against the fit of the union *)

Section PooledFromOneSample.
Local Open Scope Qc_scope.



End PooledFromOneSample.










(** ** A neuron that is constant over the samples *)

Section ConstantNeuron.
Local Open Scope Qc_scope.





End ConstantNeuron.



(** ** What a fit can raise and what it leaves alone *)



(** Whether it succeeds or fails, [fit_distribution] writes nothing but
    [self.data] and the warning lines: the files, and the attributes [type],
    [name], [num_images] and [neurons_list] of the instance, are as before
    (so the sample count is not updated by the fit itself). *)
Theorem fit_distribution_frame (fd : dict Tensor) (s : Interp) :
  NoDup (keys fd) ->
  disk (snd (fit_distribution fd s)) = disk s /\
  type (self (snd (fit_distribution fd s))) = type (self s) /\
  name (self (snd (fit_distribution fd s))) = name (self s) /\
  num_images (self (snd (fit_distribution fd s))) = num_images (self s) /\
  neurons_list (self (snd (fit_distribution fd s))) = neurons_list (self s) /\
  exists k, stdout (snd (fit_distribution fd s))
            = stdout s ++ repeat singleton_warning k.
Proof.
  intros Hnd. rewrite (fit_distribution_run fd s Hnd).
  cbn [snd disk self with_data type name num_images neurons_list stdout].
  repeat split. eauto.
Qed.

Lemma fit_distribution_frame_witness :
  let s := {| self := one_neuron 1 0 7; stdout := []; disk := [] |} in
  let fd := [("a", ex_pair); ("b", ex_empty)] in
  disk (snd (fit_distribution fd s)) = disk s /\
  type (self (snd (fit_distribution fd s))) = type (self s) /\
  name (self (snd (fit_distribution fd s))) = name (self s) /\
  num_images (self (snd (fit_distribution fd s))) = num_images (self s) /\
  neurons_list (self (snd (fit_distribution fd s))) = neurons_list (self s) /\
  exists k, stdout (snd (fit_distribution fd s))
            = stdout s ++ repeat singleton_warning k.
Proof.
  apply (fit_distribution_frame [("a", ex_pair); ("b", ex_empty)]
           {| self := one_neuron 1 0 7; stdout := []; disk := [] |}).
  now apply NoDup_keys_two.
Defined.

(** ** The merged mean *)



(** ** The loop of [__add__] on operands that do not match *)

Lemma broadcast2_mismatch (f : scalar -> scalar -> scalar) (x y : vec) :
  length x <> length y -> length x <> 1%nat -> length y <> 1%nat ->
  broadcast2 f x y = Raise RuntimeError.
Proof.
  intros H Hx Hy. unfold broadcast2.
  apply Nat.eqb_neq in H. rewrite H.
  destruct x as [|a [|a' x]]; cbn in Hx; try lia;
    destruct y as [|b [|b' y]]; cbn in Hy; try lia; reflexivity.
Qed.

(** The body of the loop raises [RuntimeError] for a layer whose two [mu]
    differ in size, neither having a single entry: the sizes do not
    broadcast. *)
Theorem add_layer_size_mismatch (a b : VDNAGauss) (l : string)
  (sa sb : LayerStats) (mu_a mu_b : vec) (acc : dict LayerStats) :
  dict_get l (data a) = Some sa -> dict_get "mu" sa = Some mu_a ->
  dict_get l (data b) = Some sb -> dict_get "mu" sb = Some mu_b ->
  length mu_a <> length mu_b ->
  length mu_a <> 1%nat -> length mu_b <> 1%nat ->
  add_layer a b l acc = Raise RuntimeError.
Proof.
  intros Ha Hma Hb Hmb Hne H1 H2. unfold add_layer. cbv zeta.
  rewrite (getitem2_ok _ _ _ _ Ha), (getitem2_ok _ _ _ _ Hb).
  rewrite (getitem_ok _ _ _ Hma), (getitem_ok _ _ _ Hmb). cbn [rbind].
  unfold vadd. rewrite broadcast2_mismatch; [reflexivity | | |];
    unfold vmulz; rewrite !length_map; assumption.
Qed.

Lemma add_layer_size_mismatch_witness :
  add_layer
    {| type := "gaussian"; name := "gaussian";
       data := [("L", [("mu", zs [1; 2]%Z); ("var", zs [0; 0]%Z)])];
       num_images := 2; neurons_list := ["L"] |}
    {| type := "gaussian"; name := "gaussian";
       data := [("L", [("mu", zs [1; 2; 3]%Z); ("var", zs [0; 0; 0]%Z)])];
       num_images := 2; neurons_list := ["L"] |}
    "L" [] = Raise RuntimeError.
Proof.
  apply (add_layer_size_mismatch _ _ "L"
           [("mu", zs [1; 2]%Z); ("var", zs [0; 0]%Z)]
           [("mu", zs [1; 2; 3]%Z); ("var", zs [0; 0; 0]%Z)]
           (zs [1; 2]%Z) (zs [1; 2; 3]%Z));
    try reflexivity; cbn [zs map length]; lia.
Defined.










(** ** Loading: failures and what is replaced *)

Lemma for_each_app {A} (xs ys : list A) (body : A -> M unit) (s : Interp) :
  for_each (xs ++ ys) body s =
  match for_each xs body s with
  | (OK _, s') => for_each ys body s'
  | (Raise e, s') => (Raise e, s')
  end.
Proof.
  revert s. induction xs as [|x xs IH]; intros s; [reflexivity|].
  cbn [app for_each]. unfold bind.
  destruct (body x s) as [[u|e] s1]; [apply IH | reflexivity].
Qed.

Section LoadFailures.
Variable rt : Runtime.


(** When the archive exists but the array of some expected layer cannot be
    read (its key is missing, or it holds an object), the load raises at the
    first such layer.  The previous statistics are gone by then: the
    instance holds the layers loaded before it, and the failing layer with
    no entry when its [mu] could not be read, or with its [mu] alone when
    its [var] could not. *)
Theorem load_dist_data_unreadable_layer (meta : dict string)
  (path device : string) (s : Interp) (z : Npz)
  (before after : list string) (l : string) (e : exn) :
  dict_get (with_suffix_npz rt path) (disk s) = Some z ->
  neurons_list (self s) = before ++ l :: after ->
  NoDup (before ++ l :: after) ->
  (forall l', In l' before -> has_arrays z l') ->
  (npz_getitem z ("mu-" ++ l)%string = Raise e ->
   _load_dist_data rt meta path device s =
   (Raise e,
    put_data (map (fun k => (k, loaded_stats z k)) before ++ [(l, [])]) s)) /\
  (forall m,
      npz_getitem z ("mu-" ++ l)%string = OK m ->
      npz_getitem z ("var-" ++ l)%string = Raise e ->
      _load_dist_data rt meta path device s =
      (Raise e,
       put_data (map (fun k => (k, loaded_stats z k)) before
                 ++ [(l, [("mu", m)])]) s)).
Proof.
  intros Hz Hnl Hnd Harr.
  assert (Hb : NoDup before) by (eapply NoDup_app_remove_r; eauto).
  assert (Hl : ~ In l before).
  { apply NoDup_remove_2 in Hnd. intros H. apply Hnd.
    apply in_or_app. now left. }
  assert (Hrun :
             _load_dist_data rt meta path device s =
             for_each (before ++ l :: after)
               (fun layer =>
                  (setitem_data layer [] ;;
                   mu <- lift (npz_getitem z ("mu-" ++ layer)%string) ;;
                   setitem_data2 layer "mu" mu ;;
                   var <- lift (npz_getitem z ("var-" ++ layer)%string) ;;
                   setitem_data2 layer "var" var)%py)
               (put_data [] s)).
  { unfold _load_dist_data. unfold bind at 1, np_load. rewrite Hz.
    unfold bind at 1, set_data at 1. unfold bind at 1, get_self at 1.
    cbn [self with_data neurons_list]. now rewrite Hnl. }
  rewrite Hrun, for_each_app, load_loop; auto.
  cbn [put_data self data with_data stdout disk app for_each].
  assert (Hfresh : ~ In l (keys (map (fun k => (k, loaded_stats z k)) before))).
  { unfold keys. rewrite map_map. cbn [fst]. now rewrite map_id. }
  split.
  - intros Hmu. unfold bind at 1. unfold bind at 1. rewrite setitem_data_run.
    unfold bind at 1, lift at 1. rewrite Hmu.
    cbn [self data with_data]. rewrite dict_set_fresh by exact Hfresh.
    reflexivity.
  - intros m Hmu Hvar. unfold bind at 1. unfold bind at 1.
    rewrite setitem_data_run.
    unfold bind at 1, lift at 1. rewrite Hmu.
    unfold bind at 1.
    rewrite (setitem_data2_run l "mu" m []) by apply dict_get_set_eq.
    unfold bind at 1, lift at 1. rewrite Hvar.
    cbn [put_data self data with_data stdout disk dict_set].
    rewrite dict_set_set, dict_set_fresh by exact Hfresh.
    reflexivity.
Qed.

End LoadFailures.


Lemma load_dist_data_unreadable_layer_witness :
  _load_dist_data ex_runtime [] "d" "cpu"
    {| self := one_neuron 1 0 1; stdout := []; disk := [("d.npz", [])] |}
  = (Raise KeyError,
     put_data ([] ++ [("L", [])])
       {| self := one_neuron 1 0 1; stdout := []; disk := [("d.npz", [])] |}).
Proof.
  apply (proj1 (load_dist_data_unreadable_layer ex_runtime [] "d" "cpu"
                  {| self := one_neuron 1 0 1; stdout := [];
                     disk := [("d.npz", [])] |}
                  [] [] [] "L" KeyError eq_refl eq_refl
                  (NoDup_cons "L" (fun H : In "L" [] => H) (NoDup_nil string))
                  (fun l' (H : In l' []) => match H with end))).
  reflexivity.
Defined.

Section PersistenceEffects.
Variable rt : Runtime.

(** A load that finds the two arrays of every expected layer replaces
    [self.data]: whatever the instance held before, it then holds exactly
    the expected layers, in the order of [neurons_list], each with the
    arrays stored under its two keys; other entries of the archive are not
    read, and nothing else of the state changes. *)
Theorem load_dist_data_replaces (meta : dict string) (path device : string)
  (s : Interp) (z : Npz) :
  dict_get (with_suffix_npz rt path) (disk s) = Some z ->
  NoDup (neurons_list (self s)) ->
  (forall l, In l (neurons_list (self s)) -> has_arrays z l) ->
  exists s',
    _load_dist_data rt meta path device s = (OK tt, s') /\
    keys (data (self s')) = neurons_list (self s) /\
    (forall l, In l (neurons_list (self s)) ->
               dict_get l (data (self s')) = Some (loaded_stats z l)) /\
    disk s' = disk s /\ stdout s' = stdout s /\
    num_images (self s') = num_images (self s) /\
    neurons_list (self s') = neurons_list (self s).
Proof.
  intros Hz Hnd Harr. eexists.
  rewrite (load_dist_data_run rt meta path device s z Hz Hnd Harr).
  split; [reflexivity|].
  cbn [put_data self data with_data disk stdout num_images neurons_list].
  split; [|split; [|repeat split]].
  - unfold keys. rewrite map_map. cbn [fst]. apply map_id.
  - intros l Hin. now apply (dict_get_tabulate (loaded_stats z)).
Qed.

(** ** Saving: failures and what is written *)




End PersistenceEffects.


Lemma load_dist_data_replaces_witness :
  exists s',
    _load_dist_data ex_runtime [] "d" "cpu"
      {| self := two_layers; stdout := [];
         disk := [("d.npz", [("mu-L", NpArray (zs [4%Z]));
                             ("var-L", NpArray (zs [1%Z]));
                             ("mu-M", NpArray (zs [5%Z]));
                             ("var-M", NpArray (zs [2%Z]))])] |}
    = (OK tt, s') /\
    keys (data (self s')) = ["L"; "M"] /\
    (forall l, In l ["L"; "M"] ->
               dict_get l (data (self s')) =
               Some (loaded_stats [("mu-L", NpArray (zs [4%Z]));
                                   ("var-L", NpArray (zs [1%Z]));
                                   ("mu-M", NpArray (zs [5%Z]));
                                   ("var-M", NpArray (zs [2%Z]))] l)) /\
    disk s' = [("d.npz", [("mu-L", NpArray (zs [4%Z]));
                          ("var-L", NpArray (zs [1%Z]));
                          ("mu-M", NpArray (zs [5%Z]));
                          ("var-M", NpArray (zs [2%Z]))])] /\
    stdout s' = [] /\
    num_images (self s') = 1%Z /\
    neurons_list (self s') = ["L"; "M"].
Proof.
  apply (load_dist_data_replaces ex_runtime [] "d" "cpu"
           {| self := two_layers; stdout := [];
              disk := [("d.npz", [("mu-L", NpArray (zs [4%Z]));
                                  ("var-L", NpArray (zs [1%Z]));
                                  ("mu-M", NpArray (zs [5%Z]));
                                  ("var-M", NpArray (zs [2%Z]))])] |}).
  - reflexivity.
  - repeat constructor; cbn; intuition discriminate.
  - intros l [<-|[<-|[]]]; split; eexists; reflexivity.
Defined.

(** ** Saving and loading twice *)

Section RoundTripTwice.
Variable rt : Runtime.




End RoundTripTwice.


(** ** The per-neuron query against the layer query *)

Lemma get_neuron_dist_in_range (v : VDNAGauss) (l : string) (mu var : vec)
  (i : nat) :
  dict_get l (data v) = Some [("mu", mu); ("var", var)] ->
  length mu = length var -> (i < length mu)%nat ->
  get_neuron_dist v l (Z.of_nat i) =
  OK [("mu", nth i mu NonFinite); ("var", nth i var NonFinite)].
Proof.
  intros H L Hi. unfold get_neuron_dist.
  rewrite (getitem_ok _ _ _ H).
  cbn [rbind getitem dict_get String.eqb Ascii.eqb Bool.eqb].
  rewrite !tensor_index_in_range by (rewrite <- ?L; lia).
  now rewrite Nat2Z.id.
Qed.

Lemma tensor_index_mod (v : vec) (i : Z) :
  (- Z.of_nat (length v) <= i < Z.of_nat (length v))%Z ->
  tensor_index v i =
  OK (nth (Z.to_nat (i mod Z.of_nat (length v))) v NonFinite).
Proof.
  intros Hi. destruct (Z.neg_nonneg_cases i) as [Hneg|Hpos].
  - rewrite tensor_index_negative by lia. do 3 f_equal.
    rewrite <- (Z.mod_add i 1) by lia.
    rewrite Z.mod_small; lia.
  - rewrite tensor_index_in_range by lia.
    now rewrite Z.mod_small by lia.
Qed.

Lemma tensor_index_ok_range (v : vec) (i : Z) (x : scalar) :
  tensor_index v i = OK x ->
  (- Z.of_nat (length v) <= i < Z.of_nat (length v))%Z.
Proof.
  intros H.
  destruct (Z_lt_ge_dec i (- Z.of_nat (length v))) as [A|A];
    [rewrite tensor_index_out_of_range in H by lia; discriminate|].
  destruct (Z_lt_ge_dec i (Z.of_nat (length v))) as [B|B]; [lia|].
  rewrite tensor_index_out_of_range in H by lia. discriminate.
Qed.

(** On a layer of [n] neurons, [get_neuron_dist] answers exactly for the
    indices from [-n] to [n - 1], and what it returns for the index [i] is
    the entry at the position [i mod n] of the two vectors
    [get_all_neurons_in_layer_dist] returns for the layer. *)
Theorem get_neuron_dist_agrees_with_layer (v : VDNAGauss) (l : string)
  (mu var : vec) (i : Z) :
  dict_get l (data v) = Some [("mu", mu); ("var", var)] ->
  length mu = length var ->
  exists mus vars,
    get_all_neurons_in_layer_dist v l = OK [("mu", mus); ("var", vars)] /\
    length mus = length mu /\
    ((- Z.of_nat (length mu) <= i < Z.of_nat (length mu))%Z ->
     get_neuron_dist v l i =
     OK [("mu", nth (Z.to_nat (i mod Z.of_nat (length mu))) mus NonFinite);
         ("var", nth (Z.to_nat (i mod Z.of_nat (length mu))) vars NonFinite)])
    /\
    ((exists r, get_neuron_dist v l i = OK r) ->
     (- Z.of_nat (length mu) <= i < Z.of_nat (length mu))%Z).
Proof.
  intros H L. exists mu, var. split; [|split; [reflexivity|split]].
  - unfold get_all_neurons_in_layer_dist. now rewrite (getitem_ok _ _ _ H).
  - intros Hi. unfold get_neuron_dist.
    rewrite (getitem_ok _ _ _ H).
    cbn [rbind getitem dict_get String.eqb Ascii.eqb Bool.eqb].
    rewrite (tensor_index_mod mu) by exact Hi.
    rewrite (tensor_index_mod var) by (rewrite <- L; exact Hi).
    now rewrite L.
  - intros [r Hr]. unfold get_neuron_dist in Hr.
    rewrite (getitem_ok _ _ _ H) in Hr.
    cbn [rbind getitem dict_get String.eqb Ascii.eqb Bool.eqb] in Hr.
    destruct (tensor_index mu i) as [x|e] eqn:E; [|discriminate].
    now apply tensor_index_ok_range in E.
Qed.

Lemma get_neuron_dist_agrees_with_layer_witness :
  let mu := zs [1; 2]%Z in
  let var := zs [0; 3]%Z in
  let v := {| type := "gaussian"; name := "gaussian";
              data := [("L", [("mu", mu); ("var", var)])];
              num_images := 4; neurons_list := ["L"] |} in
  exists mus vars,
    get_all_neurons_in_layer_dist v "L" = OK [("mu", mus); ("var", vars)] /\
    length mus = length mu /\
    ((- Z.of_nat (length mu) <= -1 < Z.of_nat (length mu))%Z ->
     get_neuron_dist v "L" (-1) =
     OK [("mu", nth (Z.to_nat (-1 mod Z.of_nat (length mu))) mus NonFinite);
         ("var", nth (Z.to_nat (-1 mod Z.of_nat (length mu))) vars NonFinite)])
    /\
    ((exists r, get_neuron_dist v "L" (-1) = OK r) ->
     (- Z.of_nat (length mu) <= -1 < Z.of_nat (length mu))%Z).
Proof.
  intros mu var v.
  apply (get_neuron_dist_agrees_with_layer v "L" mu var (-1)); reflexivity.
Defined.

(** ** The global query against the per-neuron query *)

Lemma layer_field_stats (d : dict LayerStats) (l k : string) (st : LayerStats) :
  dict_get l d = Some st -> layer_field d l k = stats_field st k.
Proof.
  intros H. unfold layer_field, stats_field. rewrite (getitem2_ok _ _ _ _ H).
  unfold getitem. now destruct (dict_get k st).
Qed.

Lemma layer_fields_in_order (d : dict LayerStats) (k : string) :
  NoDup (keys d) ->
  map (fun l => layer_field d l k) (keys d)
  = map (fun p => stats_field (snd p) k) d.
Proof.
  intros Hnd. unfold keys. rewrite map_map. apply map_ext_in.
  intros [l st] Hin. cbn [fst snd]. apply layer_field_stats.
  now apply dict_get_in.
Qed.

Lemma concat_offset (g : LayerStats -> vec) (d : dict LayerStats)
  (l : string) (st : LayerStats) (i : nat) :
  dict_get l d = Some st ->
  (forall p, In p d -> length (g (snd p)) = length (stats_field (snd p) "mu")) ->
  (i < length (g st))%nat ->
  nth (neurons_before d l + i) (concat (map (fun p => g (snd p)) d)) NonFinite
  = nth i (g st) NonFinite.
Proof.
  induction d as [|[l0 st0] d IH]; cbn [dict_get]; [discriminate|].
  intros Hget Hlen Hi. cbn [neurons_before map concat snd].
  assert (H0 : length (g st0) = length (stats_field st0 "mu"))
    by apply (Hlen (l0, st0) (or_introl eq_refl)).
  destruct (String.eqb l l0).
  - injection Hget as ->. now rewrite app_nth1.
  - rewrite app_nth2 by lia. rewrite H0.
    replace (length (stats_field st0 "mu") + neurons_before d l + i
             - length (stats_field st0 "mu"))%nat
      with (neurons_before d l + i)%nat by lia.
    apply IH; auto. intros p Hp. apply Hlen. now right.
Qed.

Lemma concat_total (g : LayerStats -> vec) (d : dict LayerStats) :
  (forall p, In p d -> length (g (snd p)) = length (stats_field (snd p) "mu")) ->
  length (concat (map (fun p => g (snd p)) d)) = total_neurons d.
Proof.
  induction d as [|p d IH]; intros Hlen; [reflexivity|].
  cbn [map concat total_neurons fold_right]. rewrite length_app.
  rewrite (Hlen p (or_introl eq_refl)). f_equal. fold (total_neurons d).
  apply IH. intros q Hq. apply Hlen. now right.
Qed.

Lemma dist_wf_fields (v : VDNAGauss) (p : string * LayerStats) :
  dist_wf v -> In p (data v) ->
  has_mu_var (snd p) /\
  length (stats_field (snd p) "var") = length (stats_field (snd p) "mu").
Proof.
  intros [_ Hall] Hin. rewrite Forall_forall in Hall.
  destruct (Hall p Hin) as (mu & var & E & L). rewrite E.
  split; [unfold has_mu_var; eauto|]. cbn. congruence.
Qed.

(** On a well-formed distribution the global query returns two vectors
    with one entry per neuron of the distribution, and it lays the layers
    out one after the other: neuron [i] of a layer is found at the position
    [neurons_before layer + i], where [get_neuron_dist] finds the same
    [mu] and [var]. *)
Theorem get_all_neurons_dists_positions (v : VDNAGauss) (l : string)
  (mu var : vec) :
  dist_wf v ->
  dict_get l (data v) = Some [("mu", mu); ("var", var)] ->
  exists all_mu all_var,
    get_all_neurons_dists v = OK [("mu", all_mu); ("var", all_var)] /\
    length all_mu = total_neurons (data v) /\
    length all_var = total_neurons (data v) /\
    forall i, (i < length mu)%nat ->
      get_neuron_dist v l (Z.of_nat i) =
      OK [("mu", nth (neurons_before (data v) l + i) all_mu NonFinite);
          ("var", nth (neurons_before (data v) l + i) all_var NonFinite)].
Proof.
  intros Hwf Hl. assert (Hnd : NoDup (keys (data v))) by apply Hwf.
  destruct (dist_wf_lookup v l _ Hwf Hl) as (mu' & var' & E & L).
  injection E as <- <-.
  do 2 eexists. rewrite get_all_neurons_dists_run.
  - rewrite !(layer_fields_in_order _ _ Hnd).
    split; [reflexivity|]. split; [|split].
    + now apply (concat_total (fun st => stats_field st "mu")).
    + apply (concat_total (fun st => stats_field st "var")).
      intros p Hp. now apply (dist_wf_fields v p Hwf).
    + intros i Hi.
      rewrite (concat_offset (fun st => stats_field st "mu") _ l _ i Hl)
        by (auto; exact Hi).
      rewrite (concat_offset (fun st => stats_field st "var") _ l _ i Hl).
      * now apply get_neuron_dist_in_range.
      * intros p Hp. now apply (dist_wf_fields v p Hwf).
      * cbn. congruence.
  - exact Hnd.
  - intros l' st Hin. now apply (dist_wf_fields v (l', st) Hwf).
  - intros E. rewrite E in Hl. discriminate.
Qed.

Lemma get_all_neurons_dists_positions_witness :
  exists all_mu all_var,
    get_all_neurons_dists two_layers = OK [("mu", all_mu); ("var", all_var)] /\
    length all_mu = total_neurons (data two_layers) /\
    length all_var = total_neurons (data two_layers) /\
    forall i, (i < length (zs [1%Z]))%nat ->
      get_neuron_dist two_layers "M" (Z.of_nat i) =
      OK [("mu", nth (neurons_before (data two_layers) "M" + i) all_mu NonFinite);
          ("var", nth (neurons_before (data two_layers) "M" + i) all_var NonFinite)].
Proof.
  apply (get_all_neurons_dists_positions two_layers "M" (zs [1%Z]) (zs [0%Z])).
  - split.
    + now apply NoDup_keys_two.
    + repeat constructor; cbn [snd]; do 2 eexists; split; reflexivity.
  - reflexivity.
Defined.

(** ** Merging with a distribution of no sample *)

Section EmptyOperand.
Local Open Scope Qc_scope.



End EmptyOperand.


